(** * mix_transformer_gt_omega: a shallow embedding

    Source: [mmseg/models/backbones/mix_transformer_gt_omega.py].

    Tensors are modelled by their logical contents: a shape and the
    row-major list of elements (what [contiguous()] produces).  Strides are
    not modelled.  Python exceptions are modelled by an error monad.  The
    element type and the torch / timm layers the file only calls are
    parameters of the development. *)

From Stdlib Require Import String Bool Arith Lia ZArith QArith Qround List.
Import ListNotations.

Set Implicit Arguments.

(** ** Python results *)

Inductive pyerr : Type :=
| TypeError | ValueError | ZeroDivisionError | RuntimeError | NameError
| AttributeError | IndexError | EinopsError | SyntaxError.

Inductive result (T : Type) : Type :=
| Ok (v : T)
| Err (e : pyerr).
Arguments Ok {T} v.
Arguments Err {T} e.

Definition bind {T U : Type} (r : result T) (k : T -> result U) : result U :=
  match r with
  | Ok v => k v
  | Err e => Err e
  end.

Declare Scope py_scope.
Delimit Scope py_scope with py.
Notation "x <- c ;; k" := (bind c (fun x => k))
  (at level 61, c at next level, right associativity) : py_scope.
Notation "' p <- c ;; k" := (bind c (fun x => let p := x in k))
  (at level 61, p pattern, c at next level, right associativity) : py_scope.
Local Open Scope py_scope.
Local Open Scope nat_scope.

Definition is_err {T : Type} (r : result T) : Prop := exists e, r = Err e.

(** A Python value used where the source passes either an [int] or a tuple. *)
Inductive pyval : Type :=
| PyInt (n : nat)
| PyTuple (l : list nat).

(** Using a value as an operand of [//], [%], [*] or [/] with an [int]. *)
Definition as_int (v : pyval) : result nat :=
  match v with
  | PyInt n => Ok n
  | PyTuple _ => Err TypeError
  end.

(** [v[i]]. *)
Definition subscript (v : pyval) (i : nat) : result nat :=
  match v with
  | PyInt _ => Err TypeError
  | PyTuple l =>
      match nth_error l i with
      | Some n => Ok n
      | None => Err IndexError
      end
  end.

(** [a // b] and [a % b] on non-negative ints. *)
Definition floordiv (a b : nat) : result nat :=
  if b =? 0 then Err ZeroDivisionError else Ok (a / b).

Definition pymod (a b : nat) : result nat :=
  if b =? 0 then Err ZeroDivisionError else Ok (a mod b).

(** *** Python floats

    A float is modelled by the rational number it denotes.  Every float
    operation returns the exact result rounded to 53 significant bits, to
    nearest, ties to even, as IEEE 754 binary64 does.  The exponent range,
    infinities and NaN are not modelled: the values formed below are
    quotients of tensor extents, far inside the range. *)

(** [floor (log2 (a / d))] for positive [a] and [d]. *)
Definition ilog2 (a d : Z) : Z :=
  let e0 := (Z.log2 a - Z.log2 d)%Z in
  let ge := if (0 <=? e0)%Z then (d * 2 ^ e0 <=? a)%Z
            else (d <=? a * 2 ^ (- e0))%Z in
  if ge then e0 else (e0 - 1)%Z.

(** [num / den] rounded to the nearest integer, ties to even. *)
Definition round_half_even (num den : Z) : Z :=
  let m := (num / den)%Z in
  let r := (num mod den)%Z in
  if (2 * r <? den)%Z then m
  else if (den <? 2 * r)%Z then (m + 1)%Z
  else if Z.even m then m else (m + 1)%Z.

(** Rounding to 53 significant bits. *)
Definition round53 (q : Q) : Q :=
  let q := Qred q in
  let n := Qnum q in
  let d := Zpos (Qden q) in
  if (n =? 0)%Z then 0%Q
  else
    let a := Z.abs n in
    let k := (52 - ilog2 a d)%Z in
    let v := if (0 <=? k)%Z
             then Qmake (round_half_even (a * 2 ^ k) d) (Z.to_pos (2 ^ k))
             else inject_Z (round_half_even a (d * 2 ^ (- k)) * 2 ^ (- k)) in
    if (n <? 0)%Z then Qopp v else v.

(** [float(n)], the conversion applied to an int operand of a float. *)
Definition float_of_int (n : Z) : Q := round53 (inject_Z n).

(** [a / b] on two ints: the correctly rounded quotient. *)
Definition truediv_int (a b : Z) : result Q :=
  if (b =? 0)%Z then Err ZeroDivisionError
  else Ok (round53 (inject_Z a / inject_Z b)).

(** [x / y] on two floats. *)
Definition truediv (x y : Q) : result Q :=
  if Qeq_bool y 0 then Err ZeroDivisionError else Ok (round53 (x / y)).

(** [int(q)]: truncation toward zero. *)
Definition py_int (q : Q) : Z :=
  if Qle_bool 0 q then Qfloor q else Qceiling q.

(** Line 50 on the ints it reads:
    [int(n0 / (H * W / window_size / window_size))]. *)
Definition line_50 (n0 H W ws : Z) : result Z :=
  d1 <- truediv_int (H * W) ws ;;
  d2 <- truediv d1 (float_of_int ws) ;;
  b <- truediv (float_of_int n0) d2 ;;
  Ok (py_int b).

(** ** Shapes and offsets *)

Definition numel (s : list nat) : nat := fold_right Nat.mul 1 s.

(** Row-major offset of a multi-index. *)
Fixpoint ravel (s idx : list nat) : nat :=
  match s, idx with
  | _ :: s', i :: idx' => i * numel s' + ravel s' idx'
  | _, _ => 0
  end.

(** Multi-index of a row-major offset. *)
Fixpoint unravel (s : list nat) (off : nat) : list nat :=
  match s with
  | [] => []
  | _ :: s' => off / numel s' :: unravel s' (off mod numel s')
  end.

(** [idx] is a valid multi-index for shape [s]. *)
Fixpoint in_bounds (s idx : list nat) : Prop :=
  match s, idx with
  | [], [] => True
  | d :: s', i :: idx' => i < d /\ in_bounds s' idx'
  | _, _ => False
  end.

(** An argument of [view] / [reshape]: a size, or [-1]. *)
Inductive dimarg : Type :=
| Dim (n : nat)
| Infer.

Definition known (args : list dimarg) : list nat :=
  flat_map (fun a => match a with Dim n => [n] | Infer => [] end) args.

Definition count_infer (args : list dimarg) : nat :=
  length (filter (fun a => match a with Infer => true | Dim _ => false end) args).

Definition fill (v : nat) (args : list dimarg) : list nat :=
  map (fun a => match a with Dim n => n | Infer => v end) args.

(** torch's size inference: at most one [-1]; with [-1] the product of the
    other sizes must be non-zero and divide the number of elements; without
    it the products must agree. *)
Definition infer_size (args : list dimarg) (n : nat) : result (list nat) :=
  match count_infer args with
  | 0 => if numel (known args) =? n then Ok (known args) else Err RuntimeError
  | 1 =>
      let p := numel (known args) in
      if p =? 0 then Err RuntimeError
      else if n mod p =? 0 then Ok (fill (n / p) args)
      else Err RuntimeError
  | _ => Err RuntimeError
  end.

(** ** Tensors *)

Section Tensors.

Variable A : Type.
Variable zero : A.

Record tensor : Type := mkT { shape : list nat; data : list A }.

Definition wf (t : tensor) : Prop := length (data t) = numel (shape t).

Definition rank (t : tensor) : nat := length (shape t).

(** Tuple unpacking of [t.shape]. *)
Definition unpack3 (t : tensor) : result (nat * nat * nat) :=
  match shape t with
  | [a; b; c] => Ok (a, b, c)
  | _ => Err ValueError
  end.

Definition unpack4 (t : tensor) : result (nat * nat * nat * nat) :=
  match shape t with
  | [a; b; c; d] => Ok (a, b, c, d)
  | _ => Err ValueError
  end.

(** [t.view(args)] (also [reshape], which on logical contents is the same). *)
Definition view (t : tensor) (args : list dimarg) : result tensor :=
  s <- infer_size args (numel (shape t)) ;;
  Ok (mkT s (data t)).

(** [idx'[k] = idx[p[k]]]. *)
Definition gather (p idx : list nat) : list nat :=
  map (fun j => nth j idx 0) p.

(** Position of [j] in [p]. *)
Fixpoint index_of (j : nat) (p : list nat) : nat :=
  match p with
  | [] => 0
  | x :: p' => if x =? j then 0 else S (index_of j p')
  end.

Definition inverse_perm (p : list nat) : list nat :=
  map (fun j => index_of j p) (seq 0 (length p)).

Definition is_perm (p : list nat) (n : nat) : bool :=
  (length p =? n) && forallb (fun j => existsb (Nat.eqb j) p) (seq 0 n).

(** Element at a multi-index, and a tensor given by its elements. *)
Definition get (t : tensor) (idx : list nat) : A :=
  nth (ravel (shape t) idx) (data t) zero.

Definition build (s : list nat) (f : list nat -> A) : tensor :=
  mkT s (map (fun off => f (unravel s off)) (seq 0 (numel s))).

(** [t.permute(p).contiguous()]. *)
Definition permute (t : tensor) (p : list nat) : result tensor :=
  if is_perm p (rank t) then
    let q := inverse_perm p in
    Ok (build (gather p (shape t)) (fun idx => get t (gather q idx)))
  else Err RuntimeError.

(** Swapping axes 2 and 3 of a rank-6 index. *)
Definition swap23 (u : list nat) : list nat := gather [0; 1; 3; 2; 4; 5] u.

(** ** The windowing functions (source lines 24-53) *)

Definition window_partition (x : tensor) (window_size : pyval) : result tensor :=
  '(B, H, W, C) <- unpack4 x ;;
  ws <- as_int window_size ;;
  Hb <- floordiv H ws ;;
  Wb <- floordiv W ws ;;
  x <- view x [Dim B; Dim Hb; Dim ws; Dim Wb; Dim ws; Dim C] ;;
  x <- permute x [0; 1; 3; 2; 4; 5] ;;
  view x [Infer; Dim ws; Dim ws; Dim C].

Definition shape0 (t : tensor) : result nat :=
  match shape t with
  | d :: _ => Ok d
  | [] => Err IndexError
  end.

(** Line 50: [int(windows.shape[0] / (H * W / window_size / window_size))]. *)
Definition window_reverse_batch (windows : tensor) (window_size : pyval) (H W : nat)
  : result nat :=
  n0 <- shape0 windows ;;
  ws <- as_int window_size ;;
  b <- line_50 (Z.of_nat n0) (Z.of_nat H) (Z.of_nat W) (Z.of_nat ws) ;;
  Ok (Z.to_nat b).

Definition window_reverse (windows : tensor) (window_size : pyval) (H W : nat)
  : result tensor :=
  B <- window_reverse_batch windows window_size H W ;;
  ws <- as_int window_size ;;
  Hb <- floordiv H ws ;;
  Wb <- floordiv W ws ;;
  x <- view windows [Dim B; Dim Hb; Dim Wb; Dim ws; Dim ws; Infer] ;;
  x <- permute x [0; 1; 3; 2; 4; 5] ;;
  view x [Dim B; Dim H; Dim W; Infer].

(** ** Other torch operations the source calls *)

Variable add mul : A -> A -> A.

Fixpoint at_axis (k : nat) (f : nat -> nat) (l : list nat) : list nat :=
  match l, k with
  | [], _ => []
  | d :: l', 0 => f d :: l'
  | d :: l', S k' => d :: at_axis k' f l'
  end.

Fixpoint map2 (T U V : Type) (f : T -> U -> V) (l : list T) (m : list U) : list V :=
  match l, m with
  | a :: l', b :: m' => f a b :: map2 f l' m'
  | _, _ => []
  end.

(** [F.pad(t, pads)] in constant mode with value 0: [pads] lists the
    (left, right) amounts from the last axis backwards. *)
Definition F_pad (t : tensor) (pads : list (nat * nat)) : result tensor :=
  if length pads <=? rank t then
    let fillp := repeat (0, 0) (rank t - length pads) in
    let ps := rev (pads ++ fillp) in
    let s' := map2 (fun d p => fst p + d + snd p) (shape t) ps in
    let lo := map fst ps in
    Ok (build s'
          (fun idx =>
             if forallb (fun b => b)
                  (map2 (fun il d => (snd il <=? fst il) && (fst il <? snd il + d))
                     (combine idx lo) (shape t))
             then get t (map2 Nat.sub idx lo)
             else zero))
  else Err RuntimeError.

(** [torch.cat([a, b], dim=1)]. *)
Definition cat_dim1 (a b : tensor) : result tensor :=
  match shape a, shape b with
  | a0 :: a1 :: ar, b0 :: b1 :: br =>
      if (a0 =? b0) && (length ar =? length br)
         && forallb (fun p => fst p =? snd p) (combine ar br)
      then
        Ok (build (a0 :: a1 + b1 :: ar)
              (fun idx =>
                 if nth 1 idx 0 <? a1 then get a idx
                 else get b (at_axis 1 (fun i => i - a1) idx)))
      else Err RuntimeError
  | _, _ => Err RuntimeError
  end.

(** [t[:, lo:hi, :]] for non-negative bounds (clamped as Python does). *)
Definition slice_dim1 (t : tensor) (lo : nat) (hi : option nat) : result tensor :=
  match shape t with
  | d0 :: d1 :: d2 :: rest =>
      let h := match hi with Some h => Nat.min h d1 | None => d1 end in
      let l := Nat.min lo h in
      Ok (build (d0 :: h - l :: d2 :: rest)
            (fun idx => get t (at_axis 1 (fun i => i + l) idx)))
  | _ => Err IndexError
  end.

(** Python's normalisation of a slice bound against a length. *)
Definition slice_bound (i : Z) (len : nat) : nat :=
  let i' := if (i <? 0)%Z then (i + Z.of_nat len)%Z else i in
  Z.to_nat (Z.min (Z.max i' 0) (Z.of_nat len)).

(** [t[a:b, :]] with possibly negative bounds. *)
Definition slice_rows (t : tensor) (a b : Z) : result tensor :=
  match shape t with
  | d0 :: d1 :: rest =>
      let l := slice_bound a d0 in
      let h := slice_bound b d0 in
      Ok (build (h - l :: d1 :: rest) (fun idx => get t (at_axis 0 (fun i => i + l) idx)))
  | _ => Err IndexError
  end.

(** [t[i]]. *)
Definition select0 (t : tensor) (i : nat) : result tensor :=
  match shape t with
  | d0 :: rest =>
      if i <? d0 then Ok (build rest (fun idx => get t (i :: idx)))
      else Err IndexError
  | [] => Err IndexError
  end.

(** [t.transpose(i, j)] with the axes counted from the end. *)
Definition transpose_last (t : tensor) (i j : nat) : result tensor :=
  if (i <=? rank t) && (j <=? rank t) && (1 <=? i) && (1 <=? j) then
    let a := rank t - i in
    let b := rank t - j in
    permute t (map (fun k => if k =? a then b else if k =? b then a else k)
                 (seq 0 (rank t)))
  else Err IndexError.

(** [t.transpose(1, 2)]. *)
Definition transpose12 (t : tensor) : result tensor :=
  if 3 <=? rank t then
    permute t (map (fun k => if k =? 1 then 2 else if k =? 2 then 1 else k)
                 (seq 0 (rank t)))
  else Err IndexError.

(** [t * s] for a Python float [s]. *)
Definition mul_scalar (t : tensor) (s : A) : tensor :=
  mkT (shape t) (map (fun v => mul v s) (data t)).

(** [a @ b] on tensors of the same rank (at least 2) whose leading axes
    agree; torch would also broadcast leading axes, which the source never
    needs. *)
Definition matmul (a b : tensor) : result tensor :=
  let ra := rank a in
  if (2 <=? ra) && (rank b =? ra) then
    let batch := firstn (ra - 2) (shape a) in
    let n := nth (ra - 2) (shape a) 0 in
    let k := nth (ra - 1) (shape a) 0 in
    let k' := nth (ra - 2) (shape b) 0 in
    let m := nth (ra - 1) (shape b) 0 in
    if (k =? k') && forallb (fun p => fst p =? snd p)
                      (combine batch (firstn (ra - 2) (shape b)))
    then
      Ok (build (batch ++ [n; m])
            (fun idx =>
               let bi := firstn (ra - 2) idx in
               let i := nth (ra - 2) idx 0 in
               let j := nth (ra - 1) idx 0 in
               fold_left (fun acc l =>
                            add acc (mul (get a (bi ++ [i; l])) (get b (bi ++ [l; j]))))
                 (seq 0 k) zero))
    else Err RuntimeError
  else Err RuntimeError.

(** Broadcast of two shapes, aligned at the last axis. *)
Fixpoint broadcast_rev (ra rb : list nat) : result (list nat) :=
  match ra, rb with
  | [], _ => Ok rb
  | _, [] => Ok ra
  | x :: ra', y :: rb' =>
      r <- broadcast_rev ra' rb' ;;
      if x =? y then Ok (x :: r)
      else if x =? 1 then Ok (y :: r)
      else if y =? 1 then Ok (x :: r)
      else Err RuntimeError
  end.

Definition broadcast_shape (sa sb : list nat) : result (list nat) :=
  r <- broadcast_rev (rev sa) (rev sb) ;;
  Ok (rev r).

(** The index of an operand that an index of the broadcast result reads. *)
Definition project (s idx : list nat) : list nat :=
  map2 (fun i d => if d =? 1 then 0 else i) (skipn (length idx - length s) idx) s.

(** [a + b]. *)
Definition tensor_add (a b : tensor) : result tensor :=
  s <- broadcast_shape (shape a) (shape b) ;;
  Ok (build s (fun idx => add (get a (project (shape a) idx))
                              (get b (project (shape b) idx)))).

(** ** einops patterns the source uses *)

(** [repeat(t, "g c -> b g c", b=b)]. *)
Definition repeat_gc_bgc (t : tensor) (b : nat) : result tensor :=
  match shape t with
  | [g; c] => Ok (mkT [b; g; c] (concat (repeat (data t) b)))
  | _ => Err EinopsError
  end.

(** [rearrange(t, "(b n) g c -> b (n g) c", n=n)]. *)
Definition regroup_per_batch (t : tensor) (n : nat) : result tensor :=
  match shape t with
  | [bn; g; c] =>
      if n =? 0 then Err ZeroDivisionError
      else if bn mod n =? 0 then Ok (mkT [bn / n; n * g; c] (data t))
      else Err EinopsError
  | _ => Err EinopsError
  end.

(** [rearrange(t, "b (n g) c -> (b n) g c", g=g, c=c)]. *)
Definition regroup_per_window (t : tensor) (g c : nat) : result tensor :=
  match shape t with
  | [b; ng; c0] =>
      if g =? 0 then Err ZeroDivisionError
      else if ng mod g =? 0 then
        if c0 =? c then Ok (mkT [b * (ng / g); g; c0] (data t))
        else Err EinopsError
      else Err EinopsError
  | _ => Err EinopsError
  end.

End Tensors.

Arguments mkT {A} shape data.

(** ** The modules of the source *)

Section Model.

Variable A : Type.
Variable zero : A.
Variable add mul : A -> A -> A.

(** A torch module called with one tensor ([nn.Linear], [nn.LayerNorm],
    [nn.Dropout], [DropPath], [nn.Softmax], an activation). *)
Definition layer : Type := tensor A -> result (tensor A).

(** [t.softmax(dim=-1)]; its numerics are torch's. *)
Variable softmax_last : tensor A -> result (tensor A).

(** Reading an attribute that [__init__] sets only on some paths. *)
Definition getattr (T : Type) (f : option T) : result T :=
  match f with
  | Some v => Ok v
  | None => Err AttributeError
  end.

(** *** ClassiqueMlp (lines 56-91) *)

Record ClassiqueMlp : Type := {
  mlp_fc1 : layer;
  mlp_dwconv : tensor A -> nat -> nat -> result (tensor A);
  mlp_act : layer;
  mlp_drop : layer;
  mlp_fc2 : layer
}.

Definition ClassiqueMlp_forward (self : ClassiqueMlp) (x : tensor A) (H W : nat)
  : result (tensor A) :=
  x <- mlp_fc1 self x ;;
  x <- mlp_dwconv self x H W ;;
  x <- mlp_act self x ;;
  x <- mlp_drop self x ;;
  x <- mlp_fc2 self x ;;
  mlp_drop self x.

(** Calling the module binds the positional arguments to [forward(x, H, W)]. *)
Definition ClassiqueMlp_call (self : ClassiqueMlp) (x : tensor A) (rest : list nat)
  : result (tensor A) :=
  match rest with
  | [H; W] => ClassiqueMlp_forward self x H W
  | _ => Err TypeError
  end.

(** *** ClassicAttention (lines 93-146) *)

Record ClassicAttention : Type := {
  ca_dim : nat;
  ca_num_heads : nat;
  ca_scale : A;
  ca_qkv : layer;
  ca_attn_drop : layer;
  ca_proj : layer;
  ca_proj_drop : layer;
  ca_softmax : layer
}.

(** Lines 129-131: the slice of the positional table. *)
Definition pe_slice (pe : tensor A) (N : nat) : result (tensor A) :=
  m <- shape0 pe ;;
  let strt := (Z.of_nat (m / 2) - Z.of_nat (N / 2))%Z in
  slice_rows zero pe strt (strt + Z.of_nat N)%Z.

(** Lines 134-146, on the input with the slice already added. *)
Definition ClassicAttention_core (self : ClassicAttention) (x : tensor A) (B_ N C : nat)
  : result (tensor A) :=
  y <- ca_qkv self x ;;
  hd <- floordiv C (ca_num_heads self) ;;
  y <- view y [Dim B_; Dim N; Dim 3; Dim (ca_num_heads self); Dim hd] ;;
  qkv <- permute zero y [2; 0; 3; 1; 4] ;;
  q <- select0 zero qkv 0 ;;
  k <- select0 zero qkv 1 ;;
  v <- select0 zero qkv 2 ;;
  let q := mul_scalar mul q (ca_scale self) in
  kt <- transpose_last zero k 2 1 ;;
  attn <- matmul zero add mul q kt ;;
  attn <- ca_softmax self attn ;;
  attn <- ca_attn_drop self attn ;;
  x <- matmul zero add mul attn v ;;
  x <- transpose12 zero x ;;
  x <- view x [Dim B_; Dim N; Dim C] ;;
  x <- ca_proj self x ;;
  ca_proj_drop self x.

Definition ClassicAttention_forward (self : ClassicAttention) (x pe : tensor A)
  : result (tensor A) :=
  '(B_, N, C) <- unpack3 x ;;
  pe <- pe_slice pe N ;;
  x <- tensor_add zero add x pe ;;
  ClassicAttention_core self x B_ N C.

(** *** Attention (lines 150-224) *)

(** The attention module of [mix_transformer.py] that the constructor
    unwraps; [sr] and [norm] exist only when [sr_ratio > 1]. *)
Record MitAttention : Type := {
  ma_dim : nat;
  ma_num_heads : nat;
  ma_scale : A;
  ma_q : layer;
  ma_kv : layer;
  ma_attn_drop : layer;
  ma_proj : layer;
  ma_proj_drop : layer;
  ma_sr_ratio : nat;
  ma_sr : option layer;
  ma_norm : option layer
}.

Record Attention : Type := {
  at_dim : nat;
  at_num_heads : nat;
  at_scale : A;
  at_q : layer;
  at_kv : layer;
  at_attn_drop : layer;
  at_proj : layer;
  at_proj_drop : layer;
  at_sr_ratio : nat;
  at_sr : option layer;
  at_norm : option layer;
  at_gt_num : nat;
  at_window_size : pyval
}.

Definition default_window_size : pyval := PyTuple [8; 8].

Definition Attention_init (attn : MitAttention) (gt_num : nat) (window_size : pyval)
  : result Attention :=
  '(sr, norm) <-
    (if 1 <? ma_sr_ratio attn then
       sr <- getattr (ma_sr attn) ;;
       norm <- getattr (ma_norm attn) ;;
       Ok (Some sr, Some norm)
     else Ok (None, None)) ;;
  Ok {| at_dim := ma_dim attn;
        at_num_heads := ma_num_heads attn;
        at_scale := ma_scale attn;
        at_q := ma_q attn;
        at_kv := ma_kv attn;
        at_attn_drop := ma_attn_drop attn;
        at_proj := ma_proj attn;
        at_proj_drop := ma_proj_drop attn;
        at_sr_ratio := ma_sr_ratio attn;
        at_sr := sr;
        at_norm := norm;
        at_gt_num := gt_num;
        at_window_size := window_size |}.

(** [(ws[i] - n % ws[i]) % ws[i]]. *)
Definition pad_amount (window_size : pyval) (i n : nat) : result nat :=
  w <- subscript window_size i ;;
  w' <- subscript window_size i ;;
  r <- pymod n w' ;;
  w'' <- subscript window_size i ;;
  pymod (w - r) w''.

(** Lines 173-182: the padded grid, with the local [C]. *)
Definition Attention_pad (self : Attention) (x : tensor A) (H W : nat)
  : result (tensor A * nat) :=
  '(B, N_, C) <- unpack3 x ;;
  x <- view x [Dim B; Dim H; Dim W; Dim C] ;;
  let pad_l := 0 in
  let pad_t := 0 in
  pad_b <- pad_amount (at_window_size self) 0 H ;;
  pad_r <- pad_amount (at_window_size self) 1 W ;;
  x <- F_pad zero x [(0, 0); (pad_l, pad_r); (pad_t, pad_b)] ;;
  '(_, Hp, Wp, _) <- unpack4 x ;;
  Ok (x, C).

(** Lines 184-185, for a given implementation [wp] of the callee. *)
Definition Attention_windows (wp : tensor A -> pyval -> result (tensor A))
  (self : Attention) (x : tensor A) (C : nat) : result (tensor A) :=
  x_windows <- wp x (at_window_size self) ;;
  ws0 <- subscript (at_window_size self) 0 ;;
  ws1 <- subscript (at_window_size self) 1 ;;
  view x_windows [Infer; Dim (ws0 * ws1); Dim C].

(** Lines 187-224, from the values of the locals [x], [x_windows], [gt]. *)
Definition Attention_attend (self : Attention) (x x_windows gt : tensor A)
  : result (tensor A * tensor A) :=
  let gt_num := at_gt_num self in
  '(B, N_, C) <- unpack3 x_windows ;;
  x_windows <-
    (if negb (at_gt_num self =? 0) then
       gt <- (if negb (rank gt =? 3) then repeat_gc_bgc gt B else Ok gt) ;;
       cat_dim1 zero gt x
     else Ok x_windows) ;;
  '(B, N, C) <- unpack3 x_windows ;;
  qx <- at_q self x_windows ;;
  hd <- floordiv C (at_num_heads self) ;;
  qx <- view qx [Dim B; Dim N; Dim (at_num_heads self); Dim hd] ;;
  q <- permute zero qx [0; 2; 1; 3] ;;
  kvx <- at_kv self x_windows ;;
  hd <- floordiv C (at_num_heads self) ;;
  kvx <- view kvx [Dim B; Infer; Dim 2; Dim (at_num_heads self); Dim hd] ;;
  kv <- permute zero kvx [2; 0; 3; 1; 4] ;;
  k <- select0 zero kv 0 ;;
  v <- select0 zero kv 1 ;;
  kt <- transpose_last zero k 2 1 ;;
  attn <- matmul zero add mul q kt ;;
  let attn := mul_scalar mul attn (at_scale self) in
  attn <- softmax_last attn ;;
  attn <- at_attn_drop self attn ;;
  x <- matmul zero add mul attn v ;;
  x <- transpose12 zero x ;;
  x <- view x [Dim B; Dim N; Dim C] ;;
  x <- at_proj self x ;;
  x <- at_proj_drop self x ;;
  xs <- slice_dim1 zero x gt_num None ;;
  xg <- slice_dim1 zero x 0 (Some gt_num) ;;
  Ok (xs, xg).

Definition Attention_forward_with (wp : tensor A -> pyval -> result (tensor A))
  (self : Attention) (x : tensor A) (H W : nat) (gt : tensor A)
  : result (tensor A * tensor A) :=
  '(x, C) <- Attention_pad self x H W ;;
  x_windows <- Attention_windows wp self x C ;;
  let x_windows := x in
  Attention_attend self x x_windows gt.

Definition Attention_forward : Attention -> tensor A -> nat -> nat -> tensor A ->
                               result (tensor A * tensor A) :=
  Attention_forward_with (window_partition zero).

(** *** Name resolution *)

(** The value bound to [name] among the names in scope that hold a value
    of type [T]; an unbound name raises [NameError]. *)
Fixpoint lookup (T : Type) (env : list (string * T)) (name : string) : result T :=
  match env with
  | [] => Err NameError
  | (n, v) :: env' => if String.eqb n name then Ok v else lookup env' name
  end.

(** [l[i]]. *)
Definition index (T : Type) (l : list T) (i : nat) : result T :=
  match nth_error l i with
  | Some v => Ok v
  | None => Err IndexError
  end.

(** *** Constructors of the global-token sub-modules (lines 57-67, 105-118) *)

Variable nn_Linear : nat -> nat -> bool -> layer.
Variable nn_Dropout : A -> layer.
Variable nn_Softmax_last : layer.
(** [n ** -0.5], which raises on [n = 0]. *)
Variable pow_neg_half : nat -> result A.
(** Truthiness of a Python float. *)
Variable truthy : A -> bool.

(** [a or b] on an optional int. *)
Definition or_int (a : option nat) (b : nat) : nat :=
  match a with
  | Some (S n) => S n
  | _ => b
  end.

(** Modules in scope in [ClassiqueMlp.__init__] whose call takes a width and
    yields a [(x, H, W)] module: none, [DWConv] is neither defined nor
    imported. *)
Definition conv_modules_in_scope
  : list (string * (nat -> tensor A -> nat -> nat -> result (tensor A))) := [].

(** [ClassiqueMlp.__init__].  The widths are naturals and [nn.Linear]
    is taken to return a layer: its own validation of the widths, which can
    raise on line 61, is outside the model. *)
Definition ClassiqueMlp_init (in_features : nat) (hidden_features out_features : option nat)
  (act_layer : unit -> layer) (drop : A) : result ClassiqueMlp :=
  let out_features := or_int out_features in_features in
  let hidden_features := or_int hidden_features in_features in
  let fc1 := nn_Linear in_features hidden_features true in
  DWConv <- lookup conv_modules_in_scope "DWConv" ;;
  Ok {| mlp_fc1 := fc1;
        mlp_dwconv := DWConv hidden_features;
        mlp_act := act_layer tt;
        mlp_drop := nn_Dropout drop;
        mlp_fc2 := nn_Linear hidden_features out_features true |}.

Definition ClassicAttention_init (dim num_heads : nat) (qkv_bias : bool)
  (qk_scale : option A) (attn_drop proj_drop : A) : result ClassicAttention :=
  head_dim <- floordiv dim num_heads ;;
  scale <- match qk_scale with
           | Some s => if truthy s then Ok s else pow_neg_half head_dim
           | None => pow_neg_half head_dim
           end ;;
  Ok {| ca_dim := dim;
        ca_num_heads := num_heads;
        ca_scale := scale;
        ca_qkv := nn_Linear dim (dim * 3) qkv_bias;
        ca_attn_drop := nn_Dropout attn_drop;
        ca_proj := nn_Linear dim dim true;
        ca_proj_drop := nn_Dropout proj_drop;
        ca_softmax := nn_Softmax_last |}.

(** *** Block (lines 227-277) *)

(** The block of [mix_transformer.py] that the constructor unwraps. *)
Record MitBlock : Type := {
  mb_norm1 : layer;
  mb_attn : MitAttention;
  mb_drop_path : layer;
  mb_norm2 : layer;
  mb_mlp : tensor A -> nat -> nat -> result (tensor A)
}.

Record Block : Type := {
  norm1 : layer;
  attn : Attention;
  drop_path : layer;
  norm2 : layer;
  mlp : tensor A -> nat -> nat -> result (tensor A);
  gt_num : nat;
  do_gmsa : bool;
  gt_mlp1 : option ClassiqueMlp;
  gt_attn : option ClassicAttention;
  gt_mlp2 : option ClassiqueMlp;
  gt_norm1 : option layer;
  gt_norm2 : option layer
}.

(** The parameter list of [Block.__init__] as written on lines 229-230:
    name and whether a default is given. *)
Inductive param : Type := Param (name : string) (has_default : bool).

Definition Block_init_params : list param :=
  [Param "self" false; Param "block" false; Param "gt_num" true;
   Param "dim" false; Param "num_heads" false; Param "mlp_ratio" true;
   Param "qkv_bias" true; Param "qk_scale" true; Param "drop" true;
   Param "attn_drop" true; Param "drop_path" true; Param "act_layer" true;
   Param "norm_layer" true; Param "sr_ratio" true; Param "window_size" true;
   Param "do_gmsa" true].

(** The body of [Block.__init__], with the arguments bound by keyword as
    the call sites on lines 335-366 pass them. *)
Definition Block_init (block : MitBlock) (gt_num dim num_heads : nat) (qkv_bias : bool)
  (drop attn_drop : A) (act_layer : unit -> layer) (norm_layer : nat -> layer)
  (sr_ratio : nat) (do_gmsa : bool) : result Block :=
  a <- Attention_init (mb_attn block) gt_num default_window_size ;;
  let ints_in_scope :=
    [("gt_num", gt_num); ("dim", dim); ("num_heads", num_heads);
     ("sr_ratio", sr_ratio)]%string in
  '(m1, ga, m2, n1, n2) <-
    (if do_gmsa then
       h <- lookup ints_in_scope "mlp_hidden_dim" ;;
       m1 <- ClassiqueMlp_init dim (Some h) None act_layer drop ;;
       ga <- ClassicAttention_init dim num_heads qkv_bias None attn_drop drop ;;
       h <- lookup ints_in_scope "mlp_hidden_dim" ;;
       m2 <- ClassiqueMlp_init dim (Some h) None act_layer drop ;;
       Ok (Some m1, Some ga, Some m2, Some (norm_layer dim), Some (norm_layer dim))
     else Ok (None, None, None, None, None)) ;;
  Ok {| norm1 := mb_norm1 block;
        attn := a;
        drop_path := mb_drop_path block;
        norm2 := mb_norm2 block;
        mlp := mb_mlp block;
        gt_num := gt_num;
        do_gmsa := do_gmsa;
        gt_mlp1 := m1;
        gt_attn := ga;
        gt_mlp2 := m2;
        gt_norm1 := n1;
        gt_norm2 := n2 |}.

(** [Block.forward].  Line 262 reads [if self.gt_num != 0 and :]; the
    missing right operand is the parameter [operand_262].  The attention
    call goes through [attn_forward]. *)
Definition Block_forward_with
  (operand_262 : Block -> bool)
  (attn_forward : Attention -> tensor A -> nat -> nat -> tensor A ->
                  result (tensor A * tensor A))
  (self : Block) (x : tensor A) (H W : nat) (gt pe : tensor A)
  : result (tensor A * tensor A) :=
  '(B, N, C) <- unpack3 x ;;
  let skip := x in
  let skip_gt := gt in
  x <- norm1 self x ;;
  '(x, gt) <- attn_forward (attn self) x H W gt ;;
  dx <- drop_path self x ;;
  x <- tensor_add zero add skip dx ;;
  nx <- norm2 self x ;;
  mx <- mlp self nx H W ;;
  dx <- drop_path self mx ;;
  x <- tensor_add zero add x dx ;;
  if negb (gt_num self =? 0) && operand_262 self then
    skip_gt <- (if negb (rank skip_gt =? 3) then repeat_gc_bgc gt B else Ok skip_gt) ;;
    m1 <- getattr (gt_mlp1 self) ;;
    ng <- norm2 self gt ;;
    mg <- ClassiqueMlp_call m1 ng [] ;;
    dg <- drop_path self mg ;;
    gt <- tensor_add zero add skip_gt dg ;;
    '(B, ngt, c) <- unpack3 gt ;;
    x0 <- shape0 x ;;
    nw <- floordiv B x0 ;;
    gt <- regroup_per_batch gt nw ;;
    ga <- getattr (gt_attn self) ;;
    gn1 <- getattr (gt_norm1 self) ;;
    ng <- gn1 gt ;;
    ag <- ClassicAttention_forward ga ng pe ;;
    dg <- drop_path self ag ;;
    gt <- tensor_add zero add gt dg ;;
    m2 <- getattr (gt_mlp2 self) ;;
    gn2 <- getattr (gt_norm2 self) ;;
    ng <- gn2 gt ;;
    mg <- ClassiqueMlp_call m2 ng [] ;;
    dg <- drop_path self mg ;;
    gt <- tensor_add zero add gt dg ;;
    gt <- regroup_per_window gt ngt c ;;
    Ok (x, gt)
  else Ok (x, gt).

(** Modelled from the spec: the right operand of [and] on line 262, absent
    from the source; section 4.4 step 4 reads the condition as "if do_gmsa
    is true for this block". *)
Definition Block_forward : Block -> tensor A -> nat -> nat -> tensor A -> tensor A ->
                           result (tensor A * tensor A) :=
  Block_forward_with do_gmsa Attention_forward.

(** *** SegFormerGTOmega (lines 284-415) *)

Definition patch_embed : Type := tensor A -> result (tensor A * nat * nat).

(** What [init_weights] reads of the [mit_b4] network. *)
Record Mix : Type := {
  mix_patch_embed1 : patch_embed;
  mix_patch_embed2 : patch_embed;
  mix_patch_embed3 : patch_embed;
  mix_patch_embed4 : patch_embed;
  mix_block1 : list MitBlock;
  mix_norm1 : layer;
  mix_norm2 : layer;
  mix_norm3 : layer;
  mix_norm4 : layer
}.

(** The attributes set by [init_weights]. *)
Record Stages : Type := {
  patch_embed1 : patch_embed;
  patch_embed2 : patch_embed;
  patch_embed3 : patch_embed;
  patch_embed4 : patch_embed;
  block1 : list Block;
  block2 : list Block;
  block3 : list Block;
  block4 : list Block;
  sg_norm1 : layer;
  sg_norm2 : layer;
  sg_norm3 : layer;
  sg_norm4 : layer
}.

Record SegFormerGTOmega : Type := {
  sg_gt_num : nat;
  embed_dims : list nat;
  num_heads : list nat;
  window_size : pyval;
  global_token1 : tensor A;
  pe1 : tensor A;
  global_token2 : tensor A;
  pe2 : tensor A;
  global_token3 : tensor A;
  pe3 : tensor A;
  global_token4 : tensor A;
  pe4 : tensor A;
  stages : option Stages
}.

Variable torch_randn : nat -> nat -> tensor A.
Variable torch_zeros : nat -> nat -> tensor A.
Variable trunc_normal_ : tensor A -> tensor A.

(** Names bound to a list in the scope of [__init__] (its locals are
    [self] and [gt_num]; the lists are attributes of [self]): none. *)
Definition lists_in_scope_of_init : list (string * list nat) := [].

Definition SegFormerGTOmega_init (gt_num : nat) : result SegFormerGTOmega :=
  let self_embed_dims := [64; 128; 320; 512] in
  let self_num_heads := [1; 2; 5; 8] in
  let self_window_size := PyTuple [8; 8] in
  ed <- lookup lists_in_scope_of_init "embed_dims" ;;
  d <- index ed 0 ;;
  let g1 := torch_randn gt_num d in
  ed <- lookup lists_in_scope_of_init "embed_dims" ;;
  d <- index ed 0 ;;
  let p1 := trunc_normal_ (torch_zeros gt_num d) in
  ed <- lookup lists_in_scope_of_init "embed_dims" ;;
  d <- index ed 1 ;;
  let g2 := torch_randn gt_num d in
  ed <- lookup lists_in_scope_of_init "embed_dims" ;;
  d <- index ed 1 ;;
  let p2 := trunc_normal_ (torch_zeros gt_num d) in
  ed <- lookup lists_in_scope_of_init "embed_dims" ;;
  d <- index ed 2 ;;
  let g3 := torch_randn gt_num d in
  ed <- lookup lists_in_scope_of_init "embed_dims" ;;
  d <- index ed 2 ;;
  let p3 := trunc_normal_ (torch_zeros gt_num d) in
  ed <- lookup lists_in_scope_of_init "embed_dims" ;;
  d <- index ed 3 ;;
  let g4 := torch_randn gt_num d in
  ed <- lookup lists_in_scope_of_init "embed_dims" ;;
  d <- index ed 3 ;;
  let p4 := trunc_normal_ (torch_zeros gt_num d) in
  Ok {| sg_gt_num := gt_num;
        embed_dims := self_embed_dims;
        num_heads := self_num_heads;
        window_size := self_window_size;
        global_token1 := g1; pe1 := p1;
        global_token2 := g2; pe2 := p2;
        global_token3 := g3; pe3 := p3;
        global_token4 := g4; pe4 := p4;
        stages := None |}.

Fixpoint mapM (T U : Type) (f : T -> result U) (l : list T) : result (list U) :=
  match l with
  | [] => Ok []
  | a :: l' => b <- f a ;; bs <- mapM f l' ;; Ok (b :: bs)
  end.

(** [[True]*n] with [do_gmsa[-1] = False]. *)
Definition do_gmsa_flags (n : nat) : result (list bool) :=
  match n with
  | 0 => Err IndexError
  | S m => Ok (repeat true m ++ [false])
  end.

(** One of the four list comprehensions of [init_weights]; each reads
    [mix.block1[i]], [self.embed_dims[i]] and [self.num_heads[i]]. *)
Definition build_blocks (self : SegFormerGTOmega) (mix : Mix)
  (act_layer : unit -> layer) (norm_layer : nat -> layer) (fzero : A) (depth : nat)
  : result (list Block) :=
  flags <- do_gmsa_flags depth ;;
  mapM (fun i =>
          b <- index (mix_block1 mix) i ;;
          d <- index (embed_dims self) i ;;
          h <- index (num_heads self) i ;;
          f <- index flags i ;;
          Block_init b (sg_gt_num self) d h true fzero fzero act_layer norm_layer 1 f)
       (seq 0 depth).

(** [init_weights]; [mix] is the network that [mit_b4(...)] returns, with
    the pretrained weights loaded when a path is given, [act_layer] and
    [norm_layer] are the defaults of [Block.__init__] and [fzero] is the
    float [0.]. *)
Definition init_weights (self : SegFormerGTOmega) (mix : Mix)
  (act_layer : unit -> layer) (norm_layer : nat -> layer) (fzero : A)
  : result SegFormerGTOmega :=
  let depths := [3; 8; 27; 3] in
  b1 <- build_blocks self mix act_layer norm_layer fzero (nth 0 depths 0) ;;
  b2 <- build_blocks self mix act_layer norm_layer fzero (nth 1 depths 0) ;;
  b3 <- build_blocks self mix act_layer norm_layer fzero (nth 2 depths 0) ;;
  b4 <- build_blocks self mix act_layer norm_layer fzero (nth 3 depths 0) ;;
  Ok {| sg_gt_num := sg_gt_num self;
        embed_dims := embed_dims self;
        num_heads := num_heads self;
        window_size := window_size self;
        global_token1 := global_token1 self; pe1 := pe1 self;
        global_token2 := global_token2 self; pe2 := pe2 self;
        global_token3 := global_token3 self; pe3 := pe3 self;
        global_token4 := global_token4 self; pe4 := pe4 self;
        stages := Some {| patch_embed1 := mix_patch_embed1 mix;
                          patch_embed2 := mix_patch_embed2 mix;
                          patch_embed3 := mix_patch_embed3 mix;
                          patch_embed4 := mix_patch_embed4 mix;
                          block1 := b1; block2 := b2; block3 := b3; block4 := b4;
                          sg_norm1 := mix_norm1 mix; sg_norm2 := mix_norm2 mix;
                          sg_norm3 := mix_norm3 mix; sg_norm4 := mix_norm4 mix |} |}.

(** [for i, blk in enumerate(blocks): x, gt = blk(x, H, W, gt, pe)]. *)
Fixpoint run_blocks (blocks : list Block) (x : tensor A) (H W : nat) (gt pe : tensor A)
  : result (tensor A * tensor A) :=
  match blocks with
  | [] => Ok (x, gt)
  | blk :: rest =>
      '(x, gt) <- Block_forward blk x H W gt pe ;;
      run_blocks rest x H W gt pe
  end.

(** One stage of [forward_features]: the global tokens start from the
    stage's parameter. *)
Definition run_stage (embed : patch_embed) (global_token : tensor A)
  (blocks : list Block) (pe : tensor A) (norm : layer) (B : nat) (x : tensor A)
  : result (tensor A) :=
  '(x, H, W) <- embed x ;;
  let gt := global_token in
  '(x, gt) <- run_blocks blocks x H W gt pe ;;
  x <- norm x ;;
  x <- view x [Dim B; Dim H; Dim W; Infer] ;;
  permute zero x [0; 3; 1; 2].

Definition forward_features (self : SegFormerGTOmega) (x : tensor A)
  : result (list (tensor A)) :=
  B <- shape0 x ;;
  let outs := [] in
  st <- getattr (stages self) ;;
  x <- run_stage (patch_embed1 st) (global_token1 self) (block1 st) (pe1 self)
         (sg_norm1 st) B x ;;
  let outs := outs ++ [x] in
  x <- run_stage (patch_embed2 st) (global_token2 self) (block2 st) (pe2 self)
         (sg_norm2 st) B x ;;
  let outs := outs ++ [x] in
  x <- run_stage (patch_embed3 st) (global_token3 self) (block3 st) (pe3 self)
         (sg_norm3 st) B x ;;
  let outs := outs ++ [x] in
  x <- run_stage (patch_embed4 st) (global_token4 self) (block4 st) (pe4 self)
         (sg_norm4 st) B x ;;
  let outs := outs ++ [x] in
  Ok outs.

Definition forward (self : SegFormerGTOmega) (x : tensor A) : result (list (tensor A)) :=
  forward_features self x.

End Model.

(** ** Well-formedness of the source text *)

(** A parameter without a default may not follow one with a default. *)
Fixpoint check_params (seen_default : bool) (ps : list param) : result unit :=
  match ps with
  | [] => Ok tt
  | Param _ true :: ps' => check_params true ps'
  | Param _ false :: ps' =>
      if seen_default then Err SyntaxError else check_params false ps'
  end.

Inductive token : Type :=
| KwIf | KwAnd | KwOr | Colon | Dot
| Name (s : string)
| Num (n : nat)
| Cmp (s : string).

(** Line 262 as written: [if self.gt_num != 0 and :]. *)
Definition line_262 : list token :=
  [KwIf; Name "self"; Dot; Name "gt_num"; Cmp "!="; Num 0; KwAnd; Colon].

(** [atom ('.' NAME)*], returning the rest of the line. *)
Fixpoint skip_trailers (ts : list token) : list token :=
  match ts with
  | Dot :: Name _ :: ts' => skip_trailers ts'
  | _ => ts
  end.

Definition parse_operand (ts : list token) : option (list token) :=
  match ts with
  | Name _ :: ts' => Some (skip_trailers ts')
  | Num _ :: ts' => Some ts'
  | _ => None
  end.

(** [operand ((cmp | 'and' | 'or') operand)* ':'] with nothing after the
    colon. *)
Fixpoint parse_condition (fuel : nat) (ts : list token) : bool :=
  match fuel with
  | 0 => false
  | S fuel' =>
      match parse_operand ts with
      | Some [Colon] => true
      | Some (Cmp _ :: ts') => parse_condition fuel' ts'
      | Some (KwAnd :: ts') => parse_condition fuel' ts'
      | Some (KwOr :: ts') => parse_condition fuel' ts'
      | _ => false
      end
  end.

Definition check_if_header (ts : list token) : result unit :=
  match ts with
  | KwIf :: ts' => if parse_condition (length ts) ts' then Ok tt else Err SyntaxError
  | _ => Err SyntaxError
  end.

(** Compiling the module checks, among the rest, the signature on lines
    229-230 and the header on line 262. *)
Definition compile_module : result unit :=
  _ <- check_params false Block_init_params ;;
  check_if_header line_262.

(** ** Concrete instances over integer elements, used by the examples *)

Module Examples.

Definition Zid : layer Z := fun t => Ok t.

Definition iota (n : nat) : list Z := map Z.of_nat (seq 1 n).

(** A stand-in for a linear layer doubling the channel axis of [(B, N, C)]. *)
Definition Zdouble : layer Z := fun t =>
  t' <- transpose12 0%Z t ;;
  t' <- cat_dim1 0%Z t' t' ;;
  transpose12 0%Z t'.

(** An 8 x 8 grid of 2-channel tokens, batch 1. *)
Definition tokens_8x8 : tensor Z := mkT [1; 64; 2] (iota 128).

(** A 4 x 4 grid of 3-channel tokens in image layout, batch 1. *)
Definition tokens_grid : tensor Z := mkT [1; 4; 4; 3] (iota 48).

(** A 2 x 2 grid of 2-channel tokens, batch 1. *)
Definition tokens_2x2 : tensor Z := mkT [1; 4; 2] (iota 8).

(** Two global tokens, un-batched and batched. *)
Definition gt_param : tensor Z := mkT [2; 2] [10; 20; 30; 40]%Z.
Definition gt_batched : tensor Z := mkT [1; 2; 2] [10; 20; 30; 40]%Z.

Definition pe_table : tensor Z := mkT [4; 2] (iota 8).

Definition mit_attention : MitAttention Z :=
  {| ma_dim := 2; ma_num_heads := 1; ma_scale := 1%Z;
     ma_q := Zid; ma_kv := Zdouble; ma_attn_drop := Zid;
     ma_proj := Zid; ma_proj_drop := Zid;
     ma_sr_ratio := 1; ma_sr := None; ma_norm := None |}.

Definition attention (gt_num : nat) (window_size : pyval) : Attention Z :=
  {| at_dim := 2; at_num_heads := 1; at_scale := 1%Z;
     at_q := Zid; at_kv := Zdouble; at_attn_drop := Zid;
     at_proj := Zid; at_proj_drop := Zid;
     at_sr_ratio := 1; at_sr := None; at_norm := None;
     at_gt_num := gt_num; at_window_size := window_size |}.

(** A block as [Block.__init__] leaves it when [do_gmsa] is false. *)
Definition block_no_gmsa : Block Z :=
  {| norm1 := Zid; attn := attention 2 default_window_size; drop_path := Zid;
     norm2 := Zid; mlp := fun t _ _ => Ok t; gt_num := 2; do_gmsa := false;
     gt_mlp1 := None; gt_attn := None; gt_mlp2 := None;
     gt_norm1 := None; gt_norm2 := None |}.

(** An attention that runs lines 187-224 directly on the rank-3 tokens. *)
Definition attend_tokens (self : Attention Z) (x : tensor Z) (H W : nat) (gt : tensor Z)
  : result (tensor Z * tensor Z) :=
  Attention_attend 0%Z Z.add Z.mul Zid self x x gt.

Definition classic_attention : ClassicAttention Z :=
  {| ca_dim := 2; ca_num_heads := 1; ca_scale := 1%Z;
     ca_qkv := fun t => t2 <- Zdouble t ;; t' <- transpose12 0%Z t ;;
                        t2' <- transpose12 0%Z t2 ;; r <- cat_dim1 0%Z t2' t' ;;
                        transpose12 0%Z r;
     ca_attn_drop := Zid; ca_proj := Zid; ca_proj_drop := Zid; ca_softmax := Zid |}.

End Examples.

(** ** Further concrete instances *)

Module MoreExamples.

Definition mit_block : MitBlock Z :=
  {| mb_norm1 := Examples.Zid; mb_attn := Examples.mit_attention;
     mb_drop_path := Examples.Zid; mb_norm2 := Examples.Zid;
     mb_mlp := fun t _ _ => Ok t |}.

(** Stand-ins for the torch constructors. *)
Definition ZLinear : nat -> nat -> bool -> layer Z := fun _ _ _ => Examples.Zid.
Definition ZDropout : Z -> layer Z := fun _ => Examples.Zid.
Definition Zpow_neg_half : nat -> result Z := fun _ => Ok 1%Z.
Definition Ztruthy : Z -> bool := fun z => negb (Z.eqb z 0).
Definition Zact : unit -> layer Z := fun _ => Examples.Zid.
Definition Znorm_layer : nat -> layer Z := fun _ => Examples.Zid.

(** A block with the global-token sub-modules present. *)
Definition classique_mlp : ClassiqueMlp Z :=
  {| mlp_fc1 := Examples.Zid; mlp_dwconv := fun t _ _ => Ok t;
     mlp_act := Examples.Zid; mlp_drop := Examples.Zid; mlp_fc2 := Examples.Zid |}.

Definition block_gmsa : Block Z :=
  {| norm1 := Examples.Zid; attn := Examples.attention 2 default_window_size;
     drop_path := Examples.Zid; norm2 := Examples.Zid; mlp := fun t _ _ => Ok t;
     gt_num := 2; do_gmsa := true;
     gt_mlp1 := Some classique_mlp; gt_attn := Some Examples.classic_attention;
     gt_mlp2 := Some classique_mlp;
     gt_norm1 := Some Examples.Zid; gt_norm2 := Some Examples.Zid |}.

(** A patch embedding that hands the tokens on as a 2 x 2 grid. *)
Definition embed_2x2 : patch_embed Z := fun t => Ok (t, 2, 2).

End MoreExamples.

(** ** Shape contracts of the torch layers *)

(** A layer that returns a tensor of the shape it is given, whatever that
    shape is ([nn.Dropout], [nn.Softmax]). *)
Definition keeps_shape (A : Type) (f : layer A) : Prop :=
  forall t, exists t', f t = Ok t' /\ shape t' = shape t.

(** A layer that maps the last axis of a rank-3 tensor from [cin] to
    [cout] channels ([nn.Linear(cin, cout)]); nothing is asked of it on a
    tensor whose last axis is not [cin]. *)
Definition maps_channels (A : Type) (f : layer A) (cin cout : nat) : Prop :=
  forall t B N, shape t = [B; N; cin] ->
    exists t', f t = Ok t' /\ shape t' = [B; N; cout].

Module NetworkExample.

(** A stand-in patch embedding: the input as four tokens on a 2 x 2 grid. *)
Definition embed : patch_embed Z := fun t =>
  t' <- view t [Dim 1; Dim 4; Infer] ;;
  Ok (t', 2, 2).

Definition no_blocks : Stages Z :=
  {| patch_embed1 := embed; patch_embed2 := embed;
     patch_embed3 := embed; patch_embed4 := embed;
     block1 := []; block2 := []; block3 := []; block4 := [];
     sg_norm1 := Examples.Zid; sg_norm2 := Examples.Zid;
     sg_norm3 := Examples.Zid; sg_norm4 := Examples.Zid |}.

Definition network : SegFormerGTOmega Z :=
  {| sg_gt_num := 2; embed_dims := [64; 128; 320; 512]; num_heads := [1; 2; 5; 8];
     window_size := PyTuple [8; 8];
     global_token1 := Examples.gt_param; pe1 := Examples.pe_table;
     global_token2 := Examples.gt_param; pe2 := Examples.pe_table;
     global_token3 := Examples.gt_param; pe3 := Examples.pe_table;
     global_token4 := Examples.gt_param; pe4 := Examples.pe_table;
     stages := Some no_blocks |}.

Definition image : tensor Z := mkT [1; 2; 2; 2] (Examples.iota 8).

End NetworkExample.

Module NetworkOutputs.

(** What [forward] returns on the example network. *)
Definition feature_maps : list (tensor Z) :=
  [mkT [1; 2; 2; 2] [1; 3; 5; 7; 2; 4; 6; 8]%Z;
   mkT [1; 2; 2; 2] [1; 5; 2; 6; 3; 7; 4; 8]%Z;
   mkT [1; 2; 2; 2] [1; 2; 3; 4; 5; 6; 7; 8]%Z;
   mkT [1; 2; 2; 2] [1; 3; 5; 7; 2; 4; 6; 8]%Z].

End NetworkOutputs.

Module ShapeExample.

(** A stand-in for [nn.Linear(cin, cout)] on rank-3 tensors: it rejects a
    last axis other than [cin], and fills the [cout] channels with the
    input channels in turn. *)
Definition linear (cin cout : nat) : layer Z := fun t =>
  match shape t with
  | [B; N; C] =>
      if C =? cin then
        Ok (build [B; N; cout]
              (fun idx => get 0%Z t (at_axis 2 (fun c => c mod cin) idx)))
      else Err RuntimeError
  | _ => Err RuntimeError
  end.

Definition attention : ClassicAttention Z :=
  {| ca_dim := 2; ca_num_heads := 1; ca_scale := 1%Z;
     ca_qkv := linear 2 (3 * 2);
     ca_attn_drop := Examples.Zid; ca_proj := linear 2 2;
     ca_proj_drop := Examples.Zid; ca_softmax := Examples.Zid |}.

Definition tokens : tensor Z := mkT [1; 2; 2] [1; 2; 3; 4]%Z.

End ShapeExample.
(** * Proofs *)

Unset Implicit Arguments.

(** ** Offsets *)

Lemma numel_cons d s : numel (d :: s) = d * numel s.
Proof. reflexivity. Qed.

Lemma ravel_unravel s : forall off, off < numel s -> ravel s (unravel s off) = off.
Proof.
  induction s as [|d s IH]; intros off Hoff.
  - simpl in *. lia.
  - rewrite numel_cons in Hoff.
    assert (Hpos : numel s <> 0) by (intro E; rewrite E in Hoff; lia).
    cbn [unravel ravel].
    rewrite IH by (apply Nat.mod_upper_bound; exact Hpos).
    pose proof (Nat.div_mod_eq off (numel s)). lia.
Qed.

Lemma unravel_in_bounds s : forall off, off < numel s -> in_bounds s (unravel s off).
Proof.
  induction s as [|d s IH]; intros off Hoff.
  - exact I.
  - rewrite numel_cons in Hoff.
    assert (Hpos : numel s <> 0) by (intro E; rewrite E in Hoff; lia).
    cbn [unravel in_bounds]. split.
    + apply Nat.Div0.div_lt_upper_bound. lia.
    + apply IH, Nat.mod_upper_bound, Hpos.
Qed.

Lemma ravel_lt s : forall idx, in_bounds s idx -> ravel s idx < numel s.
Proof.
  induction s as [|d s IH]; intros [|i idx] Hb; simpl in Hb; try contradiction.
  - simpl. lia.
  - destruct Hb as [Hi Hb]. specialize (IH _ Hb).
    cbn [ravel]. rewrite numel_cons. nia.
Qed.

Lemma unravel_ravel s : forall idx, in_bounds s idx -> unravel s (ravel s idx) = idx.
Proof.
  induction s as [|d s IH]; intros [|i idx] Hb; simpl in Hb; try contradiction.
  - reflexivity.
  - destruct Hb as [Hi Hb]. pose proof (ravel_lt _ _ Hb) as Hlt.
    cbn [ravel unravel].
    assert (Hpos : numel s <> 0) by lia.
    replace (i * numel s + ravel s idx) with (ravel s idx + i * numel s) by lia.
    rewrite Nat.div_add by exact Hpos.
    rewrite Nat.Div0.mod_add.
    rewrite Nat.div_small, Nat.mod_small by exact Hlt.
    rewrite IH by exact Hb. reflexivity.
Qed.

Lemma nth_map_seq (T : Type) (f : nat -> T) n i z :
  i < n -> nth i (map f (seq 0 n)) z = f i.
Proof.
  intros Hi. rewrite (nth_indep _ z (f 0)) by (rewrite length_map, length_seq; exact Hi).
  rewrite map_nth, seq_nth by exact Hi. reflexivity.
Qed.

Lemma map_seq_nth (T : Type) (l : list T) z :
  map (fun i => nth i l z) (seq 0 (length l)) = l.
Proof.
  apply (nth_ext _ _ z z).
  - rewrite length_map, length_seq. reflexivity.
  - intros i Hi. rewrite length_map, length_seq in Hi.
    apply nth_map_seq. exact Hi.
Qed.

(** ** Windowing *)

Section WindowProofs.

Variable A : Type.
Variable zero : A.

Lemma floordiv_mul a b : 0 < b -> floordiv (a * b) b = Ok a.
Proof.
  intros Hb. unfold floordiv.
  destruct (Nat.eqb_spec b 0); [lia|].
  rewrite Nat.div_mul by lia. reflexivity.
Qed.

Lemma view_dims (t : tensor A) dims :
  numel dims = numel (shape t) -> view t (map Dim dims) = Ok (mkT dims (data t)).
Proof.
  intros Hn. unfold view, infer_size.
  assert (Hc : forall l, count_infer (map Dim l) = 0).
  { unfold count_infer. induction l as [|d l IH]; [reflexivity|exact IH]. }
  assert (Hk : forall l, known (map Dim l) = l).
  { unfold known. induction l as [|d l IH]; [reflexivity|].
    simpl. f_equal. exact IH. }
  rewrite Hc, Hk, Hn, Nat.eqb_refl. reflexivity.
Qed.

Lemma permute_swap23 a b c d e f (dat : list A) :
  permute zero (mkT [a; b; c; d; e; f] dat) [0; 1; 3; 2; 4; 5] =
  Ok (mkT [a; b; d; c; e; f]
        (map (fun off =>
                nth (ravel [a; b; c; d; e; f] (swap23 (unravel [a; b; d; c; e; f] off)))
                    dat zero)
             (seq 0 (numel [a; b; d; c; e; f])))).
Proof. reflexivity. Qed.

Lemma swap23_bounds a b c d e f u :
  in_bounds [a; b; c; d; e; f] u ->
  in_bounds [a; b; d; c; e; f] (swap23 u) /\ swap23 (swap23 u) = u.
Proof.
  destruct u as [|u0 [|u1 [|u2 [|u3 [|u4 [|u5 [|u6 u]]]]]]]; simpl; tauto.
Qed.

Lemma numel_swap23 a b c d e f :
  numel [a; b; d; c; e; f] = numel [a; b; c; d; e; f].
Proof. simpl. nia. Qed.

(** Permuting twice with the swap gives the data back. *)
Lemma swap23_twice a b c d e f (dat : list A) :
  length dat = numel [a; b; c; d; e; f] ->
  map (fun off =>
         nth (ravel [a; b; d; c; e; f] (swap23 (unravel [a; b; c; d; e; f] off)))
             (map (fun off' =>
                     nth (ravel [a; b; c; d; e; f]
                            (swap23 (unravel [a; b; d; c; e; f] off')))
                         dat zero)
                  (seq 0 (numel [a; b; d; c; e; f])))
             zero)
      (seq 0 (numel [a; b; c; d; e; f])) = dat.
Proof.
  intros Hlen.
  transitivity (map (fun i => nth i dat zero) (seq 0 (length dat)));
    [|apply map_seq_nth].
  rewrite Hlen.
  apply map_ext_in. intros off Hin. apply in_seq in Hin.
  assert (Hoff : off < numel [a; b; c; d; e; f]) by lia.
  pose proof (unravel_in_bounds _ _ Hoff) as Hu.
  destruct (swap23_bounds _ _ _ _ _ _ _ Hu) as [Hsb Hss].
  rewrite nth_map_seq by (apply ravel_lt; exact Hsb).
  rewrite unravel_ravel by exact Hsb.
  rewrite Hss, ravel_unravel by exact Hoff.
  reflexivity.
Qed.

Lemma infer_size_one args n v :
  count_infer args = 1 -> numel (known args) <> 0 ->
  n = v * numel (known args) -> infer_size args n = Ok (fill v args).
Proof.
  intros Hc Hk Hn. unfold infer_size. rewrite Hc.
  destruct (Nat.eqb_spec (numel (known args)) 0); [contradiction|].
  subst n. rewrite Nat.Div0.mod_mul, Nat.div_mul by exact Hk. reflexivity.
Qed.

Lemma Qred_inject z : Qred (inject_Z z) = inject_Z z.
Proof.
  unfold inject_Z, Qred.
  pose proof (Z.ggcd_gcd z 1) as Hg. pose proof (Z.ggcd_correct_divisors z 1) as Hd.
  destruct (Z.ggcd z 1) as [g [a b]]. cbn [fst snd] in *.
  rewrite Z.gcd_1_r in Hg. subst g. destruct Hd as [Ha Hb].
  assert (a = z) by lia. assert (b = 1%Z) by lia. subst a b. reflexivity.
Qed.

Lemma ilog2_int z : (0 < z)%Z -> ilog2 z 1 = Z.log2 z.
Proof.
  intros Hz. unfold ilog2. change (Z.log2 1) with 0%Z. rewrite Z.sub_0_r.
  pose proof (Z.log2_nonneg z) as Hn.
  destruct (Z.leb_spec 0 (Z.log2 z)); [|lia].
  pose proof (Z.log2_spec z Hz) as [Hlo _].
  destruct (Z.leb_spec (1 * 2 ^ Z.log2 z) z); [reflexivity|lia].
Qed.

Lemma round_half_even_1 n : round_half_even n 1 = n.
Proof.
  unfold round_half_even. rewrite Z.div_1_r, Z.mod_1_r. reflexivity.
Qed.

(** Integers below 2^53 are floats. *)
Lemma round53_int z : (0 <= z < 2 ^ 53)%Z -> round53 (inject_Z z) == inject_Z z.
Proof.
  intros [Hlo Hhi]. unfold round53. rewrite Qred_inject.
  cbn [Qnum Qden inject_Z].
  destruct (Z.eqb_spec z 0) as [->|Hnz]; [reflexivity|].
  assert (Hz : (0 < z)%Z) by lia.
  rewrite Z.abs_eq by lia. rewrite (ilog2_int z Hz).
  assert (Hl : (Z.log2 z < 53)%Z) by (apply Z.log2_lt_pow2; lia).
  destruct (Z.leb_spec 0 (52 - Z.log2 z)); [|lia].
  destruct (Z.ltb_spec z 0); [lia|].
  rewrite round_half_even_1.
  unfold Qeq. cbn [Qnum Qden inject_Z].
  assert (Hp : (0 < 2 ^ (52 - Z.log2 z))%Z) by (apply Z.pow_pos_nonneg; lia).
  rewrite Z2Pos.id by exact Hp. ring.
Qed.

Lemma round53_exact q z :
  q == inject_Z z -> (0 <= z < 2 ^ 53)%Z -> round53 q == inject_Z z.
Proof.
  intros Hq Hz. rewrite <- (round53_int z Hz) at 1.
  unfold round53. rewrite (Qred_complete _ _ Hq). reflexivity.
Qed.

Lemma round53_zero q : q == 0 -> round53 q = 0%Q.
Proof.
  intros Hq. unfold round53. rewrite (Qred_complete _ _ Hq). reflexivity.
Qed.

Lemma truediv_ok a b : ~ b == 0 -> truediv a b = Ok (round53 (a / b)).
Proof.
  intros Hb. unfold truediv. destruct (Qeq_bool b 0) eqn:E; [|reflexivity].
  apply Qeq_bool_iff in E. contradiction.
Qed.

Lemma py_int_inject q z : q == inject_Z z -> py_int q = z.
Proof.
  intros Hq. unfold py_int. destruct (Qle_bool 0 q).
  - rewrite (Qfloor_comp _ _ Hq). apply Qfloor_Z.
  - rewrite (Qceiling_comp _ _ Hq). apply Qceiling_Z.
Qed.

Lemma inject_Z_nonzero z : (0 < z)%Z -> ~ inject_Z z == 0.
Proof. unfold Qeq. cbn [Qnum Qden inject_Z]. lia. Qed.

(** Below 2^53 line 50 is exact: it recovers the batch size from the
    window count. *)
Lemma line_50_exact B Hb Wb ws :
  (0 <= B)%Z -> (0 < Hb)%Z -> (0 < Wb)%Z -> (0 < ws)%Z ->
  (B * Hb * Wb < 2 ^ 53)%Z -> (Hb * Wb * ws < 2 ^ 53)%Z ->
  line_50 (B * Hb * Wb) (Hb * ws) (Wb * ws) ws = Ok B.
Proof.
  intros HB HHb HWb Hws Hn Hd.
  assert (Hws53 : (0 <= ws < 2 ^ 53)%Z) by nia.
  assert (Hhw53 : (0 <= Hb * Wb < 2 ^ 53)%Z) by nia.
  pose proof (inject_Z_nonzero ws Hws) as Nws.
  unfold line_50, truediv_int, float_of_int.
  destruct (Z.eqb_spec ws 0); [lia|]. cbn [bind].
  assert (E1 : round53 (inject_Z (Hb * ws * (Wb * ws)) / inject_Z ws)
               == inject_Z (Hb * Wb * ws)).
  { apply round53_exact; [|nia].
    rewrite !inject_Z_mult. field. exact Nws. }
  pose proof (round53_int ws Hws53) as E2.
  assert (E3 : round53 (round53 (inject_Z (Hb * ws * (Wb * ws)) / inject_Z ws)
                        / round53 (inject_Z ws)) == inject_Z (Hb * Wb)).
  { apply round53_exact; [|exact Hhw53].
    rewrite E1, E2, !inject_Z_mult. field. exact Nws. }
  rewrite truediv_ok by (rewrite E2; exact Nws). cbn [bind].
  rewrite truediv_ok.
  2:{ rewrite E3. apply inject_Z_nonzero. nia. }
  cbn [bind]. f_equal. apply py_int_inject.
  apply round53_exact; [|nia].
  rewrite E3, (round53_int (B * Hb * Wb)) by nia.
  rewrite !inject_Z_mult. field.
  split; apply inject_Z_nonzero; assumption.
Qed.

Lemma window_reverse_batch_ok (w : tensor A) B Hb Wb ws rest :
  0 < ws -> 0 < Hb -> 0 < Wb ->
  (Z.of_nat (B * Hb * Wb) < 2 ^ 53)%Z -> (Z.of_nat (Hb * Wb * ws) < 2 ^ 53)%Z ->
  shape w = B * Hb * Wb :: rest ->
  window_reverse_batch w (PyInt ws) (Hb * ws) (Wb * ws) = Ok B.
Proof.
  intros Hws HHb HWb Hn Hd Hsh. unfold window_reverse_batch, shape0. rewrite Hsh.
  cbn [bind as_int].
  rewrite !Nat2Z.inj_mul in *.
  rewrite line_50_exact by lia.
  cbn [bind]. rewrite Nat2Z.id. reflexivity.
Qed.

Lemma window_partition_blocks (dat : list A) B Hb Wb C ws :
  0 < ws -> 0 < C ->
  window_partition zero (mkT [B; Hb * ws; Wb * ws; C] dat) (PyInt ws) =
  Ok (mkT [B * Hb * Wb; ws; ws; C]
        (map (fun off =>
                nth (ravel [B; Hb; ws; Wb; ws; C]
                       (swap23 (unravel [B; Hb; Wb; ws; ws; C] off)))
                    dat zero)
             (seq 0 (numel [B; Hb; Wb; ws; ws; C])))).
Proof.
  intros Hws HC. unfold window_partition.
  cbn [unpack4 shape bind as_int].
  rewrite !floordiv_mul by exact Hws. cbn [bind].
  rewrite (view_dims _ [B; Hb; ws; Wb; ws; C]) by (simpl; nia).
  cbn [bind data]. rewrite permute_swap23. cbn [bind].
  unfold view. cbn [shape data].
  rewrite (infer_size_one _ _ (B * Hb * Wb)).
  - reflexivity.
  - reflexivity.
  - simpl. nia.
  - simpl. nia.
Qed.

Lemma window_reverse_blocks (dat : list A) B Hb Wb C ws :
  0 < ws -> 0 < C -> 0 < B -> 0 < Hb -> 0 < Wb ->
  (Z.of_nat (B * (Hb * ws) * (Wb * ws)) < 2 ^ 53)%Z ->
  window_reverse zero (mkT [B * Hb * Wb; ws; ws; C] dat) (PyInt ws) (Hb * ws) (Wb * ws) =
  Ok (mkT [B; Hb * ws; Wb * ws; C]
        (map (fun off =>
                nth (ravel [B; Hb; Wb; ws; ws; C]
                       (swap23 (unravel [B; Hb; ws; Wb; ws; C] off)))
                    dat zero)
             (seq 0 (numel [B; Hb; ws; Wb; ws; C])))).
Proof.
  intros Hws HC HB HHb HWb Hbound. unfold window_reverse.
  rewrite (window_reverse_batch_ok _ B Hb Wb ws [ws; ws; C])
    by (assumption || reflexivity || nia).
  cbn [bind as_int].
  rewrite !floordiv_mul by exact Hws. cbn [bind].
  unfold view at 1. cbn [shape data].
  rewrite (infer_size_one _ _ C); [| reflexivity | simpl; nia | simpl; nia].
  cbn [bind fill map]. rewrite permute_swap23. cbn [bind].
  unfold view. cbn [shape data].
  rewrite (infer_size_one _ _ C); [| reflexivity | simpl; nia | simpl; nia].
  reflexivity.
Qed.

End WindowProofs.

(** ** Local attention *)

Section AttentionProofs.

Variable A : Type.
Variable zero : A.
Variable add mul : A -> A -> A.
Variable softmax_last : tensor A -> result (tensor A).

Lemma bind_ok (T U : Type) (r : result T) (k : T -> result U) v :
  r = Ok v -> bind r k = k v.
Proof. intros ->. reflexivity. Qed.

Lemma bind_err (T U : Type) (r : result T) (k : T -> result U) e :
  r = Err e -> bind r k = Err e.
Proof. intros ->. reflexivity. Qed.

Lemma bind_inv (T U : Type) (r : result T) (k : T -> result U) u :
  bind r k = Ok u -> exists v, r = Ok v /\ k v = Ok u.
Proof. destruct r as [v|e]; simpl; [eauto | discriminate]. Qed.

Lemma unpack4_inv (t : tensor A) a b c d :
  unpack4 t = Ok (a, b, c, d) -> shape t = [a; b; c; d].
Proof.
  unfold unpack4.
  destruct (shape t) as [|a' [|b' [|c' [|d' [|? ?]]]]]; try discriminate.
  intros E. injection E as -> -> -> ->. reflexivity.
Qed.

Lemma unpack3_rank4 (t : tensor A) a b c d :
  shape t = [a; b; c; d] -> unpack3 t = Err ValueError.
Proof. unfold unpack3. intros ->. reflexivity. Qed.

(** The tensor that leaves lines 173-182 has rank 4. *)
Lemma Attention_pad_rank (self : Attention A) x H W xp C :
  Attention_pad zero self x H W = Ok (xp, C) ->
  exists B Hp Wp C', shape xp = [B; Hp; Wp; C'].
Proof.
  unfold Attention_pad. intros E.
  apply bind_inv in E as [[[B N_] C0] [_ E]].
  apply bind_inv in E as [x1 [_ E]].
  apply bind_inv in E as [pb [_ E]].
  apply bind_inv in E as [pr [_ E]].
  apply bind_inv in E as [x2 [_ E]].
  apply bind_inv in E as [[[[b hp] wp] c'] [Hu E]].
  injection E as <- _. apply unpack4_inv in Hu. eauto.
Qed.

(** On a rank-4 [x_windows] the unpacking on line 187 raises. *)
Lemma Attention_attend_rank4 (self : Attention A) x xw gt a b c d :
  shape xw = [a; b; c; d] ->
  Attention_attend zero add mul softmax_last self x xw gt = Err ValueError.
Proof.
  intros Hs. unfold Attention_attend. rewrite (unpack3_rank4 _ _ _ _ _ Hs). reflexivity.
Qed.

(** The outcome of [forward] in each case of its first two phases. *)
Lemma Attention_forward_with_cases wp (self : Attention A) x H W gt :
  match Attention_pad zero self x H W with
  | Err e => Attention_forward_with zero add mul softmax_last wp self x H W gt = Err e
  | Ok (xp, C) =>
      match Attention_windows wp self xp C with
      | Err e => Attention_forward_with zero add mul softmax_last wp self x H W gt = Err e
      | Ok _ =>
          Attention_forward_with zero add mul softmax_last wp self x H W gt
          = Err ValueError
      end
  end.
Proof.
  unfold Attention_forward_with.
  destruct (Attention_pad zero self x H W) as [[xp C]|e] eqn:Hp; [|reflexivity].
  cbn [bind].
  destruct (Attention_windows wp self xp C) as [w|e] eqn:Hw; [|reflexivity].
  cbn [bind].
  destruct (Attention_pad_rank _ _ _ _ _ _ Hp) as (b & hp & wpd & c' & Hs).
  apply (Attention_attend_rank4 _ _ _ _ _ _ _ _ Hs).
Qed.

Lemma Attention_forward_with_raises wp (self : Attention A) x H W gt :
  is_err (Attention_forward_with zero add mul softmax_last wp self x H W gt).
Proof.
  pose proof (Attention_forward_with_cases wp self x H W gt) as Hc.
  destruct (Attention_pad zero self x H W) as [[xp C]|e]; [|exists e; exact Hc].
  destruct (Attention_windows wp self xp C) as [w|e]; [|exists e; exact Hc].
  exists ValueError. exact Hc.
Qed.

(** As wired, [window_size] is a pair and the call on line 184 divides an
    [int] by it. *)
Lemma window_partition_tuple (x : tensor A) l :
  is_err (window_partition zero x (PyTuple l)).
Proof.
  unfold window_partition.
  destruct (unpack4 x) as [[[[b h] w] c]|e]; [|exists e; reflexivity].
  exists TypeError. reflexivity.
Qed.

End AttentionProofs.

(** ** Blocks and the encoder *)

Section BlockProofs.

Variable A : Type.
Variable zero : A.
Variable add mul : A -> A -> A.
Variable softmax_last : tensor A -> result (tensor A).

(** A block whose attention raises, raises. *)
Lemma Block_forward_with_raises op (af : Attention A -> tensor A -> nat -> nat -> tensor A ->
        result (tensor A * tensor A))
  (blk : Block A) x H W gt pe :
  (forall a y h w g, is_err (af a y h w g)) ->
  is_err (Block_forward_with zero add mul op af blk x H W gt pe).
Proof.
  intros Haf. unfold Block_forward_with.
  destruct (unpack3 x) as [[[B N] C]|e]; [|exists e; reflexivity].
  cbn [bind].
  destruct (norm1 blk x) as [nx|e]; [|exists e; reflexivity].
  cbn [bind].
  destruct (Haf (attn blk) nx H W gt) as [e He]. rewrite He.
  exists e. reflexivity.
Qed.

Lemma Block_forward_raises (blk : Block A) x H W gt pe :
  is_err (Block_forward zero add mul softmax_last blk x H W gt pe).
Proof.
  apply Block_forward_with_raises. intros a y h w g.
  apply Attention_forward_with_raises.
Qed.

Lemma run_blocks_raises (blk : Block A) rest x H W gt pe :
  is_err (run_blocks zero add mul softmax_last (blk :: rest) x H W gt pe).
Proof.
  cbn [run_blocks].
  destruct (Block_forward_raises blk x H W gt pe) as [e He]. rewrite He.
  exists e. reflexivity.
Qed.

Lemma run_stage_raises embed g (blk : Block A) rest pe norm B x :
  is_err (run_stage zero add mul softmax_last embed g (blk :: rest) pe norm B x).
Proof.
  unfold run_stage.
  destruct (embed x) as [[[y H] W]|e]; [|exists e; reflexivity].
  cbn [bind].
  destruct (run_blocks_raises blk rest y H W g pe) as [e He]. rewrite He.
  exists e. reflexivity.
Qed.

End BlockProofs.

Section EncoderProofs.

Variable A : Type.
Variable zero : A.
Variable add mul : A -> A -> A.
Variable softmax_last : tensor A -> result (tensor A).
Variable nn_Linear : nat -> nat -> bool -> layer A.
Variable nn_Dropout : A -> layer A.
Variable nn_Softmax_last : layer A.
Variable pow_neg_half : nat -> result A.
Variable truthy : A -> bool.
Variable torch_randn torch_zeros : nat -> nat -> tensor A.
Variable trunc_normal_ : tensor A -> tensor A.

(** Line 295 reads the unbound name [embed_dims]. *)
Lemma SegFormerGTOmega_init_raises gt_num :
  SegFormerGTOmega_init torch_randn torch_zeros trunc_normal_ gt_num = Err NameError.
Proof. reflexivity. Qed.

(** With [do_gmsa] set, line 241 reads the unbound name [mlp_hidden_dim]. *)
Lemma Block_init_gmsa_raises block gt_num dim heads qkv_bias drop attn_drop
  act_layer norm_layer sr_ratio :
  is_err (Block_init nn_Linear nn_Dropout nn_Softmax_last pow_neg_half truthy
            block gt_num dim heads qkv_bias drop attn_drop act_layer norm_layer
            sr_ratio true).
Proof.
  unfold Block_init.
  destruct (Attention_init (mb_attn block) gt_num default_window_size) as [a|e];
    [|exists e; reflexivity].
  exists NameError. reflexivity.
Qed.

(** The first block that [init_weights] builds has [do_gmsa] set. *)
Lemma build_blocks_raises self mix act_layer norm_layer fzero depth :
  is_err (build_blocks nn_Linear nn_Dropout nn_Softmax_last pow_neg_half truthy
            self mix act_layer norm_layer fzero (S (S depth))).
Proof.
  unfold build_blocks. cbn [do_gmsa_flags bind seq mapM].
  destruct (index (mix_block1 mix) 0) as [b|e]; [|exists e; reflexivity].
  cbn [bind].
  destruct (index (embed_dims self) 0) as [d|e]; [|exists e; reflexivity].
  cbn [bind].
  destruct (index (num_heads self) 0) as [h|e]; [|exists e; reflexivity].
  cbn [bind].
  change (index (repeat true (S depth) ++ [false]) 0) with (@Ok bool true).
  cbn [bind].
  destruct (Block_init_gmsa_raises b (sg_gt_num self) d h true fzero fzero
              act_layer norm_layer 1) as [e He].
  rewrite He. exists e. reflexivity.
Qed.

Lemma init_weights_raises self mix act_layer norm_layer fzero :
  is_err (init_weights nn_Linear nn_Dropout nn_Softmax_last pow_neg_half truthy
            self mix act_layer norm_layer fzero).
Proof.
  unfold init_weights. cbn [nth].
  destruct (build_blocks_raises self mix act_layer norm_layer fzero 1) as [e He].
  rewrite He. exists e. reflexivity.
Qed.

(** [forward] on a network whose first stage has a block. *)
Lemma forward_raises (self : SegFormerGTOmega A) x :
  match stages self with
  | None => forward zero add mul softmax_last self x = Err AttributeError
            \/ forward zero add mul softmax_last self x = Err IndexError
  | Some st =>
      match block1 st with
      | [] => True
      | _ :: _ => is_err (forward zero add mul softmax_last self x)
      end
  end.
Proof.
  unfold forward, forward_features.
  destruct (stages self) as [st|].
  - destruct (block1 st) as [|blk rest] eqn:Hb; [exact I|].
    destruct (shape0 x) as [B|e]; [|exists e; reflexivity].
    cbn [bind getattr]. rewrite Hb.
    destruct (run_stage_raises A zero add mul softmax_last (patch_embed1 st)
                (global_token1 self) blk rest (pe1 self) (sg_norm1 st) B x) as [e He].
    rewrite He. exists e. reflexivity.
  - unfold shape0. destruct (shape x); [right|left]; reflexivity.
Qed.

End EncoderProofs.

(** ** Global-token attention and regrouping *)

Section GlobalTokenProofs.

Variable A : Type.
Variable zero : A.
Variable add mul : A -> A -> A.

Lemma centered_fits N L : N <= L -> L / 2 - N / 2 + N <= L /\ N / 2 <= L / 2.
Proof.
  intros Hle.
  pose proof (Nat.div_mod_eq L 2). pose proof (Nat.div_mod_eq N 2).
  pose proof (Nat.mod_upper_bound L 2). pose proof (Nat.mod_upper_bound N 2).
  lia.
Qed.

Lemma slice_bound_nat i len : i <= len -> slice_bound (Z.of_nat i) len = i.
Proof.
  intros Hi. unfold slice_bound.
  destruct (Z.ltb_spec (Z.of_nat i) 0); lia.
Qed.

(** For [N <= L] the slice is rows [L/2 - N/2 .. L/2 - N/2 + N). *)
Lemma pe_slice_centered (pe : tensor A) L Cp N :
  shape pe = [L; Cp] -> N <= L ->
  pe_slice zero pe N =
  Ok (build [N; Cp]
        (fun idx => get zero pe (at_axis 0 (fun i => i + (L / 2 - N / 2)) idx))).
Proof.
  intros Hs Hle. destruct (centered_fits N L Hle) as [Hfit Hhalf].
  unfold pe_slice, shape0, slice_rows. rewrite Hs. cbn [bind].
  replace (Z.of_nat (L / 2) - Z.of_nat (N / 2))%Z
    with (Z.of_nat (L / 2 - N / 2)) by lia.
  replace (Z.of_nat (L / 2 - N / 2) + Z.of_nat N)%Z
    with (Z.of_nat (L / 2 - N / 2 + N)) by lia.
  rewrite !slice_bound_nat by lia.
  replace (L / 2 - N / 2 + N - (L / 2 - N / 2)) with N by lia.
  reflexivity.
Qed.

Lemma get_build s f idx :
  in_bounds s idx -> get zero (build s f) idx = f idx.
Proof.
  intros Hb. unfold get, build. cbn [shape data].
  rewrite nth_map_seq by (apply ravel_lt; exact Hb).
  rewrite unravel_ravel by exact Hb. reflexivity.
Qed.

Lemma build_get (t : tensor A) :
  wf t -> build (shape t) (fun idx => get zero t idx) = t.
Proof.
  unfold wf, build, get. destruct t as [s d]. cbn [shape data]. intros Hlen.
  f_equal. rewrite <- Hlen at 1.
  transitivity (map (fun i => nth i d zero) (seq 0 (length d))); [|apply map_seq_nth].
  apply map_ext_in. intros off Hin. apply in_seq in Hin.
  rewrite ravel_unravel by lia. reflexivity.
Qed.

End GlobalTokenProofs.

(** * The claims *)

(** ** Windowing round trip *)

(** C1, as amended: for every tensor [x] of shape (B, H, W, C) whose
    extents and window size are all positive, with H and W multiples of
    the window size and fewer than 2^53 grid positions in all
    ([B * H * W < 2^53]), [window_reverse (window_partition x ws) ws H W]
    returns exactly [x]. *)
Theorem window_roundtrip (A : Type) (zero : A) (x : tensor A) B H W C ws :
  shape x = [B; H; W; C] -> wf x ->
  0 < B -> 0 < H -> 0 < W -> 0 < C -> 0 < ws ->
  H mod ws = 0 -> W mod ws = 0 ->
  (Z.of_nat (B * H * W) < 2 ^ 53)%Z ->
  (w <- window_partition zero x (PyInt ws) ;;
   window_reverse zero w (PyInt ws) H W) = Ok x.
Proof.
  intros Hs Hwf HB HH HW HC Hws HmH HmW Hbound.
  destruct x as [s dat]. cbn [shape] in Hs. subst s.
  unfold wf in Hwf. cbn [shape data] in Hwf.
  assert (EH : H = H / ws * ws).
  { pose proof (Nat.div_mod_eq H ws). lia. }
  assert (EW : W = W / ws * ws).
  { pose proof (Nat.div_mod_eq W ws). lia. }
  assert (HHb : 0 < H / ws) by (destruct (H / ws); lia).
  assert (HWb : 0 < W / ws) by (destruct (W / ws); lia).
  remember (H / ws) as Hb eqn:E1. remember (W / ws) as Wb eqn:E2.
  clear E1 E2 HmH HmW HH HW. subst H W.
  rewrite window_partition_blocks by assumption. cbn [bind].
  rewrite window_reverse_blocks by assumption.
  f_equal. f_equal.
  apply swap23_twice.
  rewrite Hwf. simpl. nia.
Qed.

Lemma window_roundtrip_witness :
  (w <- window_partition 0%Z Examples.tokens_grid (PyInt 2) ;;
   window_reverse 0%Z w (PyInt 2) 4 4) = Ok Examples.tokens_grid.
Proof.
  apply (window_roundtrip Z 0%Z Examples.tokens_grid 1 4 4 3 2);
    solve [reflexivity | lia].
Defined.

(** C1 as stated fails in two ways.  On an empty grid 0 is a multiple of
    the window size, the partition is the empty batch of windows, and line
    50 divides by the float 0.0.  On a grid of 215356388 x 205024189 blocks
    of 3 x 3, batch 1, the floats of line 50 are no longer exact: the
    quotient is 0.9999999999999998 and [int] makes the batch size 0. *)
Lemma window_roundtrip_empty_grid :
  let x := mkT [1; 0; 8; 1] (@nil Z) in
  wf x /\ 0 mod 8 = 0 /\ 8 mod 8 = 0 /\
  window_partition 0%Z x (PyInt 8) = Ok (mkT [0; 8; 8; 1] []) /\
  (w <- window_partition 0%Z x (PyInt 8) ;; window_reverse 0%Z w (PyInt 8) 0 8)
  = Err ZeroDivisionError /\
  line_50 (1 * 215356388 * 205024189) (215356388 * 3) (205024189 * 3) 3 = Ok 0%Z.
Proof. repeat split; vm_compute; reflexivity. Qed.

(** ** Local attention *)

(** C2, traced at 2 x 2 tokens with the default window: lines 173-182
    pad the grid to 8 x 8; the call on line 184 then divides an int by the
    pair [window_size] and raises, so no partition is computed; and with a
    partition that returns, line 186 leaves the rank-4 grid in
    [x_windows], line 187 raises, and no tensor reaches the concatenation
    or the projections. *)
Theorem windowing_feeds_no_attention :
  exists grid,
    Attention_pad 0%Z (Examples.attention 2 default_window_size)
      Examples.tokens_2x2 2 2 = Ok (grid, 2)
    /\ shape grid = [1; 8; 8; 2]
    /\ window_partition 0%Z grid default_window_size = Err TypeError
    /\ Attention_forward 0%Z Z.add Z.mul Examples.Zid
         (Examples.attention 2 default_window_size) Examples.tokens_2x2 2 2
         Examples.gt_batched = Err TypeError
    /\ (exists w, window_partition 0%Z grid (PyInt 8) = Ok w
                  /\ shape w = [1; 8; 8; 2])
    /\ unpack3 grid = Err ValueError
    /\ Attention_forward_with 0%Z Z.add Z.mul Examples.Zid
         (fun t _ => window_partition 0%Z t (PyInt 8))
         (Examples.attention 2 default_window_size) Examples.tokens_2x2 2 2
         Examples.gt_batched = Err ValueError.
Proof.
  eexists. split; [vm_compute; reflexivity|].
  split; [reflexivity|]. split; [reflexivity|].
  split; [vm_compute; reflexivity|].
  split; [eexists; split; [vm_compute; reflexivity|reflexivity]|].
  split; [reflexivity|]. vm_compute. reflexivity.
Qed.

(** C10: [Attention.forward] raises on every input.  If lines 173-185
    return, the padded grid has rank 4 and the three-way unpacking on line
    187 raises [ValueError]; otherwise the earlier error propagates. *)
Theorem Attention_forward_always_raises (A : Type) (zero : A) (add mul : A -> A -> A)
  (softmax_last : tensor A -> result (tensor A))
  (self : Attention A) (x : tensor A) (H W : nat) (gt : tensor A) :
  is_err (Attention_forward zero add mul softmax_last self x H W gt)
  /\ forall wp,
      match Attention_pad zero self x H W with
      | Err e => Attention_forward_with zero add mul softmax_last wp self x H W gt = Err e
      | Ok (xp, C) =>
          rank xp = 4 /\
          match Attention_windows wp self xp C with
          | Err e =>
              Attention_forward_with zero add mul softmax_last wp self x H W gt = Err e
          | Ok _ =>
              Attention_forward_with zero add mul softmax_last wp self x H W gt
              = Err ValueError
          end
      end.
Proof.
  split.
  - apply Attention_forward_with_raises.
  - intros wp.
    pose proof (Attention_forward_with_cases A zero add mul softmax_last wp self x H W gt)
      as Hc.
    destruct (Attention_pad zero self x H W) as [[xp C]|e] eqn:Hp; [|exact Hc].
    split; [|exact Hc].
    destruct (Attention_pad_rank A zero self x H W xp C Hp) as (b & hp & wpd & c' & Hs).
    unfold rank. rewrite Hs. reflexivity.
Qed.

(** C4, at an input of the documented shapes (8 x 8 tokens, two global
    tokens, the default window): the call raises instead of returning the
    two tensors, as wired and also with a window partition that returns. *)
Theorem local_attention_returns_no_shapes :
  Attention_forward 0%Z Z.add Z.mul Examples.Zid
    (Examples.attention 2 default_window_size) Examples.tokens_8x8 8 8 Examples.gt_param
  = Err TypeError
  /\ Attention_forward_with 0%Z Z.add Z.mul Examples.Zid
       (fun t _ => window_partition 0%Z t (PyInt 8))
       (Examples.attention 2 default_window_size) Examples.tokens_8x8 8 8
       Examples.gt_param
     = Err ValueError.
Proof. split; vm_compute; reflexivity. Qed.

(** C7, at [gt_num = 0]: the call raises before the test of [gt_num] is
    reached. *)
Theorem local_attention_without_global_tokens :
  Attention_forward 0%Z Z.add Z.mul Examples.Zid
    (Examples.attention 0 default_window_size) Examples.tokens_8x8 8 8 Examples.gt_param
  = Err TypeError
  /\ Attention_forward_with 0%Z Z.add Z.mul Examples.Zid
       (fun t _ => window_partition 0%Z t (PyInt 8))
       (Examples.attention 0 default_window_size) Examples.tokens_8x8 8 8
       Examples.gt_param
     = Err ValueError.
Proof. split; vm_compute; reflexivity. Qed.

(** ** Blocks *)

(** C5, traced at a block built with [do_gmsa] false: the call returns
    no global tokens at all; it raises in the block's local attention
    (line 257), whatever the right operand of [and] on line 262 is. *)
Theorem Block_without_gmsa_returns_no_tokens :
  do_gmsa Examples.block_no_gmsa = false
  /\ forall op,
       Block_forward_with 0%Z Z.add Z.mul op
         (Attention_forward 0%Z Z.add Z.mul Examples.Zid)
         Examples.block_no_gmsa Examples.tokens_2x2 2 2 Examples.gt_batched
         Examples.pe_table = Err TypeError.
Proof.
  split; [reflexivity|]. intros op. vm_compute. reflexivity.
Qed.

(** ** Global-token attention *)

Lemma project_in_bounds s idx :
  in_bounds s idx -> project s idx = idx.
Proof.
  unfold project. intros Hb.
  assert (Hlen : length idx = length s).
  { revert idx Hb. induction s as [|d s IH]; intros [|i idx] Hb;
      simpl in Hb; try contradiction; [reflexivity|].
    simpl. f_equal. apply IH. tauto. }
  rewrite Hlen, Nat.sub_diag. cbn [skipn].
  revert idx Hb Hlen. induction s as [|d s IH]; intros [|i idx] Hb Hlen;
    simpl in Hb; try contradiction; [reflexivity|].
  destruct Hb as [Hi Hb]. cbn [map2].
  rewrite IH by (try assumption; simpl in Hlen; lia).
  destruct (Nat.eqb_spec d 1); [|reflexivity].
  f_equal. lia.
Qed.

(** C6, as amended: for a table of [L] rows and a sequence of [N <= L]
    tokens, the slice read on lines 129-131 has [N] rows, row [i] of the
    slice being row [L/2 - N/2 + i] of the table; line 132 adds row [i] of
    the slice to token [i] of every batch element, and it is that sum
    which the rest of [forward], starting with [qkv], receives; for
    [N = L] the slice is the table itself. *)
Theorem pe_centered_slice (A : Type) (zero : A) (add mul : A -> A -> A)
  (self : ClassicAttention A) (x pe : tensor A) B N C L :
  shape x = [B; N; C] -> shape pe = [L; C] -> wf pe -> N <= L ->
  exists s y,
    pe_slice zero pe N = Ok s
    /\ shape s = [N; C]
    /\ (forall i c, i < N -> c < C ->
        get zero s [i; c] = get zero pe [L / 2 - N / 2 + i; c])
    /\ tensor_add zero add x s = Ok y
    /\ shape y = [B; N; C]
    /\ (forall b i c, b < B -> i < N -> c < C ->
        get zero y [b; i; c]
        = add (get zero x [b; i; c]) (get zero pe [L / 2 - N / 2 + i; c]))
    /\ ClassicAttention_forward zero add mul self x pe
       = ClassicAttention_core zero add mul self y B N C
    /\ (N = L -> s = pe).
Proof.
  intros Hx Hpe Hwf Hle.
  pose proof (pe_slice_centered A zero pe L C N Hpe Hle) as Hsl.
  assert (Hget : forall i c, i < N -> c < C ->
            get zero (build [N; C]
                        (fun idx => get zero pe
                                      (at_axis 0 (fun i => i + (L / 2 - N / 2)) idx)))
                     [i; c]
            = get zero pe [L / 2 - N / 2 + i; c]).
  { intros i c Hi Hc. rewrite get_build by (simpl; tauto).
    cbn [at_axis]. rewrite (Nat.add_comm i). reflexivity. }
  eexists. eexists.
  split; [exact Hsl|]. split; [reflexivity|]. split; [exact Hget|].
  assert (Hadd : tensor_add zero add x
                   (build [N; C]
                      (fun idx => get zero pe
                                    (at_axis 0 (fun i => i + (L / 2 - N / 2)) idx)))
                 = Ok (build [B; N; C]
                         (fun idx =>
                            add (get zero x (project [B; N; C] idx))
                                (get zero
                                   (build [N; C]
                                      (fun idx => get zero pe
                                         (at_axis 0 (fun i => i + (L / 2 - N / 2)) idx)))
                                   (project [N; C] idx))))).
  { unfold tensor_add, broadcast_shape. rewrite Hx. cbn [shape build].
    cbn [rev app broadcast_rev bind]. rewrite !Nat.eqb_refl. reflexivity. }
  split; [exact Hadd|]. split; [reflexivity|]. split; [|split].
  - intros b i c Hb Hi Hc.
    rewrite get_build by (simpl; tauto).
    rewrite (project_in_bounds [B; N; C] [b; i; c]) by (simpl; tauto).
    f_equal.
    unfold project. cbn [length Nat.sub skipn map2].
    replace (if N =? 1 then 0 else i) with i
      by (destruct (Nat.eqb_spec N 1); [lia|reflexivity]).
    replace (if C =? 1 then 0 else c) with c
      by (destruct (Nat.eqb_spec C 1); [lia|reflexivity]).
    apply Hget; assumption.
  - unfold ClassicAttention_forward, unpack3. rewrite Hx. cbn [bind].
    rewrite Hsl. cbn [bind]. rewrite Hadd. reflexivity.
  - intros ->. rewrite Nat.sub_diag.
    transitivity (build (shape pe) (fun idx => get zero pe idx));
      [|apply build_get; exact Hwf].
    rewrite Hpe.
    unfold build. f_equal. apply map_ext_in. intros off Hin. apply in_seq in Hin.
    cbn [unravel at_axis]. rewrite Nat.add_0_r. reflexivity.
Qed.

Lemma pe_centered_slice_witness :
  (exists s y,
      pe_slice 0%Z Examples.pe_table 2 = Ok s
      /\ shape s = [2; 2]
      /\ (forall i c, i < 2 -> c < 2 ->
          get 0%Z s [i; c] = get 0%Z Examples.pe_table [4 / 2 - 2 / 2 + i; c])
      /\ tensor_add 0%Z Z.add (mkT [1; 2; 2] [1; 2; 3; 4]%Z) s = Ok y
      /\ shape y = [1; 2; 2]
      /\ (forall b i c, b < 1 -> i < 2 -> c < 2 ->
          get 0%Z y [b; i; c]
          = Z.add (get 0%Z (mkT [1; 2; 2] [1; 2; 3; 4]%Z) [b; i; c])
                  (get 0%Z Examples.pe_table [4 / 2 - 2 / 2 + i; c]))
      /\ ClassicAttention_forward 0%Z Z.add Z.mul Examples.classic_attention
           (mkT [1; 2; 2] [1; 2; 3; 4]%Z) Examples.pe_table
         = ClassicAttention_core 0%Z Z.add Z.mul Examples.classic_attention y 1 2 2
      /\ (2 = 4 -> s = Examples.pe_table))
  /\ (exists s y,
      pe_slice 0%Z Examples.pe_table 4 = Ok s
      /\ shape s = [4; 2]
      /\ (forall i c, i < 4 -> c < 2 ->
          get 0%Z s [i; c] = get 0%Z Examples.pe_table [4 / 2 - 4 / 2 + i; c])
      /\ tensor_add 0%Z Z.add Examples.tokens_2x2 s = Ok y
      /\ shape y = [1; 4; 2]
      /\ (forall b i c, b < 1 -> i < 4 -> c < 2 ->
          get 0%Z y [b; i; c]
          = Z.add (get 0%Z Examples.tokens_2x2 [b; i; c])
                  (get 0%Z Examples.pe_table [4 / 2 - 4 / 2 + i; c]))
      /\ ClassicAttention_forward 0%Z Z.add Z.mul Examples.classic_attention
           Examples.tokens_2x2 Examples.pe_table
         = ClassicAttention_core 0%Z Z.add Z.mul Examples.classic_attention y 1 4 2
      /\ (4 = 4 -> s = Examples.pe_table)).
Proof.
  split.
  - apply (pe_centered_slice Z 0%Z Z.add Z.mul Examples.classic_attention
             (mkT [1; 2; 2] [1; 2; 3; 4]%Z) Examples.pe_table 1 2 2 4);
      solve [reflexivity | lia].
  - apply (pe_centered_slice Z 0%Z Z.add Z.mul Examples.classic_attention
             Examples.tokens_2x2 Examples.pe_table 1 4 2 4);
      solve [reflexivity | lia].
Defined.

(** C6 as stated fails for a sequence longer than the table.  With 2
    rows and 4 tokens the start [2/2 - 4/2] is -1, Python reads the slice
    [-1:3] from the end, and the one row it yields is added to every
    token; with 4 rows and 5 tokens the slice has 4 rows and the sum
    raises. *)
Lemma pe_slice_longer_sequence :
  pe_slice 0%Z (mkT [2; 2] [1; 2; 3; 4]%Z) 4 = Ok (mkT [1; 2] [3; 4]%Z)
  /\ tensor_add 0%Z Z.add Examples.tokens_2x2 (mkT [1; 2] [3; 4]%Z)
     = Ok (mkT [1; 4; 2] [4; 6; 6; 8; 8; 10; 10; 12]%Z)
  /\ pe_slice 0%Z Examples.pe_table 5 = Ok Examples.pe_table
  /\ ClassicAttention_forward 0%Z Z.add Z.mul Examples.classic_attention
       (mkT [1; 5; 2] (Examples.iota 10)) Examples.pe_table = Err RuntimeError.
Proof. repeat split; vm_compute; reflexivity. Qed.

(** ** Regrouping of the global tokens *)

(** C8: the regrouping of lines 271 and 275 is a round trip.  For every
    tensor of shape ((b n), g, c) that reaches it (the guard on line 262
    gives [g > 0]) and every window count [n > 0] dividing the batch
    extent, regrouping to "b (n g) c" and back returns the tensor itself. *)
Theorem regroup_roundtrip (A : Type) (gt : tensor A) bn g c n :
  shape gt = [bn; g; c] -> 0 < n -> bn mod n = 0 -> 0 < g ->
  (t <- regroup_per_batch gt n ;; regroup_per_window t g c) = Ok gt.
Proof.
  intros Hs Hn Hdiv Hg. destruct gt as [s d]. cbn [shape] in Hs. subst s.
  unfold regroup_per_batch. cbn [shape data].
  destruct (Nat.eqb_spec n 0); [lia|].
  rewrite Hdiv. cbn [Nat.eqb bind].
  unfold regroup_per_window. cbn [shape data].
  destruct (Nat.eqb_spec g 0); [lia|].
  rewrite Nat.Div0.mod_mul, Nat.div_mul by lia.
  cbn [Nat.eqb]. rewrite Nat.eqb_refl.
  f_equal. f_equal. f_equal.
  pose proof (Nat.div_mod_eq bn n). lia.
Qed.

Lemma regroup_roundtrip_witness :
  (t <- regroup_per_batch (mkT [4; 2; 1] (Examples.iota 8)) 2 ;;
   regroup_per_window t 2 1) = Ok (mkT [4; 2; 1] (Examples.iota 8)).
Proof.
  apply (regroup_roundtrip Z (mkT [4; 2; 1] (Examples.iota 8)) 4 2 1 2);
    solve [reflexivity | lia].
Defined.

(** ** The encoder and the module *)

(** C9: no forward pass returns feature maps.  The constructor raises on
    line 295, [init_weights] raises while building the first block, and
    [forward] on any network whose first stage has a block raises in that
    block's attention. *)
Theorem encoder_returns_no_feature_maps (A : Type) (zero : A) (add mul : A -> A -> A)
  (softmax_last : tensor A -> result (tensor A))
  (nn_Linear : nat -> nat -> bool -> layer A) (nn_Dropout : A -> layer A)
  (nn_Softmax_last : layer A) (pow_neg_half : nat -> result A) (truthy : A -> bool)
  (torch_randn torch_zeros : nat -> nat -> tensor A)
  (trunc_normal_ : tensor A -> tensor A) :
  (forall gt_num,
      SegFormerGTOmega_init torch_randn torch_zeros trunc_normal_ gt_num = Err NameError)
  /\ (forall self mix act_layer norm_layer fzero,
         is_err (init_weights nn_Linear nn_Dropout nn_Softmax_last pow_neg_half truthy
                   self mix act_layer norm_layer fzero))
  /\ (forall (self : SegFormerGTOmega A) x,
         match stages self with
         | None => forward zero add mul softmax_last self x = Err AttributeError
                   \/ forward zero add mul softmax_last self x = Err IndexError
         | Some st =>
             match block1 st with
             | [] => True
             | _ :: _ => is_err (forward zero add mul softmax_last self x)
             end
         end).
Proof.
  split; [|split].
  - intros gt_num. reflexivity.
  - intros. apply init_weights_raises.
  - intros. apply forward_raises.
Qed.

(** C3: the module does not compile (the signature on lines 229-230 and
    the header on line 262 are rejected), and with those two repaired the
    constructors still raise [NameError] on [embed_dims] and, for a block
    with [do_gmsa], on [mlp_hidden_dim]. *)
Theorem module_is_not_executable (A : Type)
  (nn_Linear : nat -> nat -> bool -> layer A) (nn_Dropout : A -> layer A)
  (nn_Softmax_last : layer A) (pow_neg_half : nat -> result A) (truthy : A -> bool)
  (torch_randn torch_zeros : nat -> nat -> tensor A)
  (trunc_normal_ : tensor A -> tensor A) :
  compile_module = Err SyntaxError
  /\ check_params false Block_init_params = Err SyntaxError
  /\ check_if_header line_262 = Err SyntaxError
  /\ (forall gt_num,
         SegFormerGTOmega_init torch_randn torch_zeros trunc_normal_ gt_num
         = Err NameError)
  /\ (forall block gt_num dim heads qkv_bias drop attn_drop act_layer norm_layer
             sr_ratio,
         Block_init nn_Linear nn_Dropout nn_Softmax_last pow_neg_half truthy
           block gt_num dim heads qkv_bias drop attn_drop act_layer norm_layer
           sr_ratio true
         = match Attention_init (mb_attn block) gt_num default_window_size with
           | Ok _ => Err NameError
           | Err e => Err e
           end).
Proof.
  split; [reflexivity|]. split; [reflexivity|]. split; [reflexivity|].
  split; [reflexivity|].
  intros block gt_num dim heads qkv_bias drop attn_drop act_layer norm_layer sr_ratio.
  unfold Block_init.
  destruct (Attention_init (mb_attn block) gt_num default_window_size); reflexivity.
Qed.

(** * Further properties of the source *)

(** ** Windowing *)

Section WindowExtras.

Variable A : Type.
Variable zero : A.

Lemma length_build (s : list nat) (f : list nat -> A) :
  length (data (build s f)) = numel s.
Proof. unfold build. cbn [data]. rewrite length_map, length_seq. reflexivity. Qed.

Lemma divides_blocks n ws : 0 < ws -> n mod ws = 0 -> n = n / ws * ws.
Proof. intros Hws Hm. pose proof (Nat.div_mod_eq n ws). lia. Qed.

End WindowExtras.

(** X1: for a grid whose height and width are multiples of a positive
    window size (and with at least one channel), [window_partition] returns
    a well-formed tensor of shape (B * H/ws * W/ws, ws, ws, C); the batch
    and the grid may be empty. *)
Theorem window_partition_shape (A : Type) (zero : A) (x : tensor A) B H W C ws :
  shape x = [B; H; W; C] -> 0 < ws -> 0 < C ->
  H mod ws = 0 -> W mod ws = 0 ->
  exists w,
    window_partition zero x (PyInt ws) = Ok w
    /\ shape w = [B * (H / ws) * (W / ws); ws; ws; C]
    /\ wf w.
Proof.
  intros Hs Hws HC HmH HmW. destruct x as [s dat]. cbn [shape] in Hs. subst s.
  pose proof (divides_blocks H ws Hws HmH) as EH.
  pose proof (divides_blocks W ws Hws HmW) as EW.
  remember (H / ws) as Hb eqn:E1. remember (W / ws) as Wb eqn:E2.
  clear E1 E2 HmH HmW. subst H W.
  eexists. split; [apply window_partition_blocks; assumption|].
  split; [reflexivity|].
  unfold wf. cbn [data shape]. rewrite length_map, length_seq. simpl. nia.
Qed.

Lemma window_partition_shape_witness :
  exists w,
    window_partition 0%Z Examples.tokens_grid (PyInt 2) = Ok w
    /\ shape w = [1 * (4 / 2) * (4 / 2); 2; 2; 3]
    /\ wf w.
Proof.
  apply (window_partition_shape Z 0%Z Examples.tokens_grid 1 4 4 3 2);
    solve [reflexivity | lia].
Defined.

(** X2: window [(b * H/ws + hb) * W/ws + wb] of the partition holds the
    block of the grid at rows [hb * ws ..] and columns [wb * ws ..]:
    element (i, j, c) of that window is element
    (b, hb * ws + i, wb * ws + j, c) of the input. *)
Theorem window_partition_get (A : Type) (zero : A) (x : tensor A) B H W C ws
  b hb wb i j c :
  shape x = [B; H; W; C] -> 0 < ws ->
  H mod ws = 0 -> W mod ws = 0 ->
  b < B -> hb < H / ws -> wb < W / ws -> i < ws -> j < ws -> c < C ->
  exists w,
    window_partition zero x (PyInt ws) = Ok w
    /\ get zero w [(b * (H / ws) + hb) * (W / ws) + wb; i; j; c]
       = get zero x [b; hb * ws + i; wb * ws + j; c].
Proof.
  intros Hs Hws HmH HmW Hb Hhb Hwb Hi Hj Hc.
  destruct x as [s dat]. cbn [shape] in Hs. subst s.
  pose proof (divides_blocks H ws Hws HmH) as EH.
  pose proof (divides_blocks W ws Hws HmW) as EW.
  remember (H / ws) as Hb' eqn:E1. remember (W / ws) as Wb' eqn:E2.
  clear E1 E2 HmH HmW. subst H W.
  eexists. split; [apply window_partition_blocks; lia|].
  unfold get. cbn [shape data].
  assert (Hin : in_bounds [B; Hb'; Wb'; ws; ws; C] [b; hb; wb; i; j; c])
    by (simpl; tauto).
  replace (ravel [B * Hb' * Wb'; ws; ws; C] [(b * Hb' + hb) * Wb' + wb; i; j; c])
    with (ravel [B; Hb'; Wb'; ws; ws; C] [b; hb; wb; i; j; c])
    by (cbn [ravel numel fold_right]; ring).
  rewrite nth_map_seq by (apply ravel_lt; exact Hin).
  rewrite unravel_ravel by exact Hin.
  f_equal. cbn [swap23 gather map nth ravel numel fold_right]. ring.
Qed.

Lemma window_partition_get_witness :
  exists w,
    window_partition 0%Z Examples.tokens_grid (PyInt 2) = Ok w
    /\ get 0%Z w [(0 * (4 / 2) + 1) * (4 / 2) + 0; 1; 0; 2]
       = get 0%Z Examples.tokens_grid [0; 1 * 2 + 1; 0 * 2 + 0; 2].
Proof.
  apply (window_partition_get Z 0%Z Examples.tokens_grid 1 4 4 3 2 0 1 0 1 0 2);
    solve [reflexivity | simpl; lia].
Defined.

(** X3: on a non-empty grid whose height or width is not a multiple of
    the (positive) window size, [window_partition] raises [RuntimeError]:
    the first [view] does not fit.  The caller has to pad first. *)
Theorem window_partition_indivisible (A : Type) (zero : A) (x : tensor A) B H W C ws :
  shape x = [B; H; W; C] ->
  0 < B -> 0 < H -> 0 < W -> 0 < C -> 0 < ws ->
  H mod ws <> 0 \/ W mod ws <> 0 ->
  window_partition zero x (PyInt ws) = Err RuntimeError.
Proof.
  intros Hs HB HH HW HC Hws Hnd.
  unfold window_partition, unpack4. rewrite Hs. cbn [bind as_int].
  unfold floordiv. destruct (Nat.eqb_spec ws 0); [lia|]. cbn [bind].
  unfold view, infer_size. cbn [count_infer filter length known flat_map app].
  rewrite Hs.
  assert (Hlt : numel [B; H / ws; ws; W / ws; ws; C] < numel [B; H; W; C]).
  { cbn [numel fold_right].
    pose proof (Nat.div_mod_eq H ws) as EH. pose proof (Nat.div_mod_eq W ws) as EW.
    assert (H / ws * ws <= H) by lia.
    assert (W / ws * ws <= W) by lia.
    assert ((H / ws * ws) * (W / ws * ws) < H * W).
    { destruct Hnd as [Hn|Hn].
      - assert (H / ws * ws < H) by lia. nia.
      - assert (W / ws * ws < W) by lia. nia. }
    nia. }
  destruct (Nat.eqb_spec (numel [B; H / ws; ws; W / ws; ws; C]) (numel [B; H; W; C]));
    [lia|reflexivity].
Qed.

Lemma window_partition_indivisible_witness :
  window_partition 0%Z (mkT [1; 3; 4; 1] (Examples.iota 12)) (PyInt 2)
  = Err RuntimeError.
Proof.
  apply (window_partition_indivisible Z 0%Z (mkT [1; 3; 4; 1] (Examples.iota 12))
           1 3 4 1 2); try reflexivity; try lia.
  left. simpl. lia.
Defined.

(** X4: the two functions are inverse in the other order as well: for a
    well-formed batch of [B * Hb * Wb] windows with all extents positive
    and fewer than 2^53 grid positions in all, partitioning the grid that
    [window_reverse] assembles returns the windows. *)
Theorem window_partition_after_reverse (A : Type) (zero : A) (w : tensor A)
  B Hb Wb C ws :
  shape w = [B * Hb * Wb; ws; ws; C] -> wf w ->
  0 < B -> 0 < Hb -> 0 < Wb -> 0 < C -> 0 < ws ->
  (Z.of_nat (B * (Hb * ws) * (Wb * ws)) < 2 ^ 53)%Z ->
  (x <- window_reverse zero w (PyInt ws) (Hb * ws) (Wb * ws) ;;
   window_partition zero x (PyInt ws)) = Ok w.
Proof.
  intros Hs Hwf HB HHb HWb HC Hws Hbound.
  destruct w as [s dat]. cbn [shape] in Hs. subst s.
  unfold wf in Hwf. cbn [shape data] in Hwf.
  rewrite window_reverse_blocks by assumption. cbn [bind].
  rewrite window_partition_blocks by assumption.
  f_equal. f_equal.
  apply (swap23_twice A zero B Hb Wb ws ws C).
  rewrite Hwf. simpl. nia.
Qed.

Lemma window_partition_after_reverse_witness :
  (x <- window_reverse 0%Z (mkT [1 * 2 * 2; 2; 2; 3] (Examples.iota 48)) (PyInt 2)
          (2 * 2) (2 * 2) ;;
   window_partition 0%Z x (PyInt 2)) = Ok (mkT [1 * 2 * 2; 2; 2; 3] (Examples.iota 48)).
Proof.
  apply (window_partition_after_reverse Z 0%Z
           (mkT [1 * 2 * 2; 2; 2; 3] (Examples.iota 48)) 1 2 2 3 2);
    solve [reflexivity | lia].
Defined.

(** X5: for an image of zero height or zero width, [window_reverse]
    raises [ZeroDivisionError] on line 50, whatever windows it is given. *)
Theorem window_reverse_empty_image (A : Type) (zero : A) (w : tensor A) ws H W :
  shape w <> [] -> 0 < ws -> H * W = 0 ->
  window_reverse zero w (PyInt ws) H W = Err ZeroDivisionError.
Proof.
  intros Hr Hws Hz. unfold window_reverse, window_reverse_batch, shape0.
  destruct (shape w) as [|n0 rest]; [contradiction|].
  cbn [bind as_int]. unfold line_50, truediv_int.
  rewrite <- Nat2Z.inj_mul, Hz.
  destruct (Z.eqb_spec (Z.of_nat ws) 0); [lia|]. cbn [bind].
  assert (E1 : round53 (inject_Z (Z.of_nat 0) / inject_Z (Z.of_nat ws)) = 0%Q).
  { apply round53_zero. change (inject_Z (Z.of_nat 0)) with 0%Q.
    unfold Qdiv. apply Qmult_0_l. }
  rewrite E1. unfold truediv at 1.
  destruct (Qeq_bool (float_of_int (Z.of_nat ws)) 0); [reflexivity|]. cbn [bind].
  rewrite (round53_zero (0 / float_of_int (Z.of_nat ws)))
    by (unfold Qdiv; apply Qmult_0_l).
  reflexivity.
Qed.

Lemma window_reverse_empty_image_witness :
  window_reverse 0%Z (mkT [4; 2; 2; 3] (Examples.iota 48)) (PyInt 2) 0 4
  = Err ZeroDivisionError.
Proof.
  apply (window_reverse_empty_image Z 0%Z (mkT [4; 2; 2; 3] (Examples.iota 48)) 2 0 4);
    solve [discriminate | reflexivity | lia].
Defined.

(** ** Local attention *)

Lemma pad_amount_value l i n w :
  nth_error l i = Some w -> 0 < w ->
  pad_amount (PyTuple l) i n = Ok ((w - n mod w) mod w).
Proof.
  intros Hl Hw. unfold pad_amount, subscript, pymod. rewrite Hl. cbn [bind].
  destruct (Nat.eqb_spec w 0); [lia|]. reflexivity.
Qed.

(** X6: the padding computed on lines 179-180 is the least amount that
    brings the extent up to a multiple of the window size: it is smaller
    than the window size, the padded extent is a multiple, and it is 0 when
    the extent already is one. *)
Theorem pad_amount_spec l i n w :
  nth_error l i = Some w -> 0 < w ->
  exists p,
    pad_amount (PyTuple l) i n = Ok p
    /\ p < w /\ (n + p) mod w = 0 /\ (n mod w = 0 -> p = 0).
Proof.
  intros Hl Hw. exists ((w - n mod w) mod w).
  split; [apply pad_amount_value; assumption|].
  pose proof (Nat.mod_upper_bound n w) as Hr.
  pose proof (Nat.div_mod_eq n w) as Hn.
  split; [apply Nat.mod_upper_bound; lia|]. split.
  - destruct (Nat.eq_dec (n mod w) 0) as [Hz|Hnz].
    + rewrite Hz, Nat.sub_0_r, Nat.Div0.mod_same, Nat.add_0_r. exact Hz.
    + rewrite (Nat.mod_small (w - n mod w) w) by lia.
      replace (n + (w - n mod w)) with ((n / w + 1) * w) by nia.
      apply Nat.Div0.mod_mul.
  - intros Hz. rewrite Hz, Nat.sub_0_r. apply Nat.Div0.mod_same.
Qed.

Lemma pad_amount_spec_witness :
  exists p,
    pad_amount (PyTuple [8; 8]) 0 13 = Ok p
    /\ p < 8 /\ (13 + p) mod 8 = 0 /\ (13 mod 8 = 0 -> p = 0).
Proof.
  apply (pad_amount_spec [8; 8] 0 13 8); solve [reflexivity | lia].
Defined.

(** X7: for tokens of shape (B, H*W, C) and a window size given as a pair
    of positive ints, lines 173-182 return the grid of shape
    (B, H + pb, W + pr, C), both padded extents multiples of the window
    size, that holds token [h * W + w] at (h, w) inside the H x W corner
    and zero in the padding at the bottom and the right. *)
Theorem Attention_pad_grid (A : Type) (zero : A) (self : Attention A) (x : tensor A)
  B C H W l w0 w1 :
  shape x = [B; H * W; C] ->
  at_window_size self = PyTuple l ->
  nth_error l 0 = Some w0 -> nth_error l 1 = Some w1 -> 0 < w0 -> 0 < w1 ->
  exists xp pb pr,
    Attention_pad zero self x H W = Ok (xp, C)
    /\ shape xp = [B; H + pb; W + pr; C]
    /\ pb < w0 /\ pr < w1
    /\ (H + pb) mod w0 = 0 /\ (W + pr) mod w1 = 0
    /\ forall b h w c, b < B -> h < H + pb -> w < W + pr -> c < C ->
         get zero xp [b; h; w; c]
         = if (h <? H) && (w <? W) then get zero x [b; h * W + w; c] else zero.
Proof.
  intros Hs Hws Hl0 Hl1 Hw0 Hw1.
  destruct (pad_amount_spec l 0 H w0 Hl0 Hw0) as (pb & Epb & Hpb & Hmb & _).
  destruct (pad_amount_spec l 1 W w1 Hl1 Hw1) as (pr & Epr & Hpr & Hmr & _).
  destruct x as [s dat]. cbn [shape] in Hs. subst s.
  eexists. exists pb, pr.
  split.
  { unfold Attention_pad. cbn [unpack3 shape bind].
    rewrite (view_dims A _ [B; H; W; C]) by (cbn [shape numel fold_right]; ring).
    cbn [bind data]. rewrite Hws, Epb, Epr. cbn [bind].
    unfold F_pad. cbn [rank shape length Nat.leb Nat.sub repeat app rev map2 fst snd
                        map bind unpack4 build].
    reflexivity. }
  split.
  { unfold build. cbn [shape Nat.add]. rewrite !Nat.add_0_r. reflexivity. }
  repeat (split; [assumption|]).
  intros b h w c Hb Hh Hw Hc.
  rewrite get_build by (cbn [in_bounds]; repeat split; lia).
  cbn [combine map2 fst snd forallb Nat.leb Nat.add].
  replace (b <? B) with true by (symmetry; apply Nat.ltb_lt; exact Hb).
  replace (c <? C) with true by (symmetry; apply Nat.ltb_lt; exact Hc).
  rewrite !Nat.sub_0_r, !andb_true_r, !andb_true_l.
  destruct ((h <? H) && (w <? W)); [|reflexivity].
  unfold get. cbn [shape data]. f_equal. cbn [ravel numel fold_right]. ring.
Qed.

Lemma Attention_pad_grid_witness :
  exists xp pb pr,
    Attention_pad 0%Z (Examples.attention 2 default_window_size) Examples.tokens_2x2 2 2
    = Ok (xp, 2)
    /\ shape xp = [1; 2 + pb; 2 + pr; 2]
    /\ pb < 8 /\ pr < 8
    /\ (2 + pb) mod 8 = 0 /\ (2 + pr) mod 8 = 0
    /\ forall b h w c, b < 1 -> h < 2 + pb -> w < 2 + pr -> c < 2 ->
         get 0%Z xp [b; h; w; c]
         = if (h <? 2) && (w <? 2) then get 0%Z Examples.tokens_2x2 [b; h * 2 + w; c]
           else 0%Z.
Proof.
  apply (Attention_pad_grid Z 0%Z (Examples.attention 2 default_window_size)
           Examples.tokens_2x2 1 2 2 2 [8; 8] 8 8);
    solve [reflexivity | lia].
Defined.

(** X8: on tokens of shape (B, H*W, C), [Attention.forward] raises
    [TypeError] for either kind of window size: an int cannot be
    subscripted on line 179, and a pair of positive ints cannot divide the
    height on line 184 ([H // window_size] inside [window_partition]). *)
Theorem Attention_forward_type_error (A : Type) (zero : A) (add mul : A -> A -> A)
  (softmax_last : tensor A -> result (tensor A))
  (self : Attention A) (x gt : tensor A) B C H W :
  shape x = [B; H * W; C] ->
  (exists n, at_window_size self = PyInt n)
  \/ (exists l w0 w1, at_window_size self = PyTuple l
                      /\ nth_error l 0 = Some w0 /\ nth_error l 1 = Some w1
                      /\ 0 < w0 /\ 0 < w1) ->
  Attention_forward zero add mul softmax_last self x H W gt = Err TypeError.
Proof.
  intros Hs [[n Hws] | (l & w0 & w1 & Hws & Hl0 & Hl1 & Hw0 & Hw1)].
  - unfold Attention_forward, Attention_forward_with, Attention_pad, unpack3.
    rewrite Hs. cbn [bind].
    rewrite (view_dims A _ [B; H; W; C]) by (rewrite Hs; cbn [numel fold_right]; ring).
    cbn [bind]. unfold pad_amount. rewrite Hws. reflexivity.
  - destruct (Attention_pad_grid A zero self x B C H W l w0 w1 Hs Hws Hl0 Hl1 Hw0 Hw1)
      as (xp & pb & pr & Epad & Hshape & _).
    unfold Attention_forward, Attention_forward_with. rewrite Epad. cbn [bind].
    unfold Attention_windows, window_partition, unpack4. rewrite Hshape, Hws.
    reflexivity.
Qed.

Lemma Attention_forward_type_error_witness :
  Attention_forward 0%Z Z.add Z.mul Examples.Zid
    (Examples.attention 2 default_window_size) Examples.tokens_2x2 2 2
    Examples.gt_batched = Err TypeError.
Proof.
  apply (Attention_forward_type_error Z 0%Z Z.add Z.mul Examples.Zid
           (Examples.attention 2 default_window_size) Examples.tokens_2x2
           Examples.gt_batched 1 2 2 2).
  - reflexivity.
  - right. exists [8; 8], 8, 8. repeat split; lia.
Defined.

(** ** Blocks *)

(** X9: whenever the condition on line 262 holds, [Block.forward] raises,
    whatever the local attention returns: line 265 calls [gt_mlp1], a
    [ClassiqueMlp] whose [forward] takes [(x, H, W)], with the tensor
    only. *)
Theorem Block_global_branch_raises (A : Type) (zero : A) (add mul : A -> A -> A)
  (op : Block A -> bool)
  (af : Attention A -> tensor A -> nat -> nat -> tensor A ->
        result (tensor A * tensor A))
  (blk : Block A) (x : tensor A) (H W : nat) (gt pe : tensor A) :
  gt_num blk <> 0 -> op blk = true ->
  is_err (Block_forward_with zero add mul op af blk x H W gt pe).
Proof.
  intros Hg Hop. unfold Block_forward_with.
  destruct (unpack3 x) as [[[B N] C]|e]; [|exists e; reflexivity]. cbn [bind].
  destruct (norm1 blk x) as [nx|e]; [|exists e; reflexivity]. cbn [bind].
  destruct (af (attn blk) nx H W gt) as [[xa ga]|e]; [|exists e; reflexivity].
  cbn [bind].
  destruct (drop_path blk xa) as [dx|e]; [|exists e; reflexivity]. cbn [bind].
  destruct (tensor_add zero add x dx) as [x1|e]; [|exists e; reflexivity]. cbn [bind].
  destruct (norm2 blk x1) as [nx1|e]; [|exists e; reflexivity]. cbn [bind].
  destruct (mlp blk nx1 H W) as [mx|e]; [|exists e; reflexivity]. cbn [bind].
  destruct (drop_path blk mx) as [dx1|e]; [|exists e; reflexivity]. cbn [bind].
  destruct (tensor_add zero add x1 dx1) as [x2|e]; [|exists e; reflexivity].
  cbn [bind].
  rewrite Hop. destruct (Nat.eqb_spec (gt_num blk) 0); [contradiction|].
  cbn [negb andb].
  destruct (if negb (rank gt =? 3) then repeat_gc_bgc ga B else Ok gt) as [sg|e];
    [|exists e; reflexivity]. cbn [bind].
  destruct (getattr (gt_mlp1 blk)) as [m1|e]; [|exists e; reflexivity]. cbn [bind].
  destruct (norm2 blk ga) as [ng|e]; [|exists e; reflexivity]. cbn [bind].
  exists TypeError. reflexivity.
Qed.

Lemma Block_global_branch_raises_witness :
  is_err (Block_forward_with 0%Z Z.add Z.mul (@do_gmsa Z) Examples.attend_tokens
            MoreExamples.block_gmsa Examples.tokens_2x2 2 2 Examples.gt_batched
            Examples.pe_table).
Proof.
  apply (Block_global_branch_raises Z 0%Z Z.add Z.mul (@do_gmsa Z)
           Examples.attend_tokens MoreExamples.block_gmsa Examples.tokens_2x2 2 2
           Examples.gt_batched Examples.pe_table).
  - discriminate.
  - reflexivity.
Defined.

(** X10: every block that [Block.__init__] returns was built with
    [do_gmsa] false: it has none of the global-token sub-modules, it keeps
    the given [gt_num], and its attention has the default window (8, 8)
    and the same [gt_num]. *)
Theorem Block_init_returns_plain_block (A : Type)
  (nn_Linear : nat -> nat -> bool -> layer A) (nn_Dropout : A -> layer A)
  (nn_Softmax_last : layer A) (pow_neg_half : nat -> result A) (truthy : A -> bool)
  block g dim heads qkv_bias drop attn_drop act_layer norm_layer sr_ratio flag
  (blk : Block A) :
  Block_init nn_Linear nn_Dropout nn_Softmax_last pow_neg_half truthy
    block g dim heads qkv_bias drop attn_drop act_layer norm_layer sr_ratio flag
  = Ok blk ->
  flag = false
  /\ do_gmsa blk = false
  /\ gt_mlp1 blk = None /\ gt_attn blk = None /\ gt_mlp2 blk = None
  /\ gt_norm1 blk = None /\ gt_norm2 blk = None
  /\ gt_num blk = g
  /\ at_gt_num (attn blk) = g
  /\ at_window_size (attn blk) = PyTuple [8; 8].
Proof.
  intros E. unfold Block_init in E.
  apply bind_inv in E as [a [Ha E]].
  destruct flag.
  - cbn in E. discriminate.
  - cbn [bind] in E. injection E as <-. cbn.
    unfold Attention_init in Ha.
    apply bind_inv in Ha as [[sr nm] [_ Ha]]. injection Ha as <-. cbn.
    repeat split; reflexivity.
Qed.

Lemma Block_init_returns_plain_block_witness :
  false = false
  /\ do_gmsa Examples.block_no_gmsa = false
  /\ gt_mlp1 Examples.block_no_gmsa = None /\ gt_attn Examples.block_no_gmsa = None
  /\ gt_mlp2 Examples.block_no_gmsa = None
  /\ gt_norm1 Examples.block_no_gmsa = None /\ gt_norm2 Examples.block_no_gmsa = None
  /\ gt_num Examples.block_no_gmsa = 2
  /\ at_gt_num (attn Examples.block_no_gmsa) = 2
  /\ at_window_size (attn Examples.block_no_gmsa) = PyTuple [8; 8].
Proof.
  apply (Block_init_returns_plain_block Z MoreExamples.ZLinear MoreExamples.ZDropout
           Examples.Zid MoreExamples.Zpow_neg_half MoreExamples.Ztruthy
           MoreExamples.mit_block 2 2 1 true 0%Z 0%Z MoreExamples.Zact
           MoreExamples.Znorm_layer 1 false Examples.block_no_gmsa).
  reflexivity.
Defined.

(** ** The encoder *)

(** X11: a stage without blocks turns the normalised tokens of shape
    (B, H*W, C) into the feature map of shape (B, C, H, W) whose element
    (b, c, h, w) is channel [c] of token [h * W + w] (lines 378-380). *)
Theorem run_stage_feature_map (A : Type) (zero : A) (add mul : A -> A -> A)
  (softmax_last : tensor A -> result (tensor A))
  (embed : patch_embed A) (g pe : tensor A) (norm : layer A)
  (x t t' : tensor A) B H W C :
  embed x = Ok (t, H, W) -> norm t = Ok t' -> shape t' = [B; H * W; C] ->
  0 < B -> 0 < H -> 0 < W ->
  exists m,
    run_stage zero add mul softmax_last embed g [] pe norm B x = Ok m
    /\ shape m = [B; C; H; W]
    /\ forall b c h w, b < B -> c < C -> h < H -> w < W ->
         get zero m [b; c; h; w] = get zero t' [b; h * W + w; c].
Proof.
  intros He Hn Hs HB HH HW.
  destruct t' as [s dat]. cbn [shape] in Hs. subst s.
  eexists. split.
  { unfold run_stage. rewrite He. cbn [bind run_blocks]. rewrite Hn. cbn [bind].
    unfold view. cbn [shape data].
    rewrite (infer_size_one _ _ C);
      [| reflexivity | cbn [known flat_map app numel fold_right]; nia
       | cbn [known flat_map app numel fold_right]; ring].
    cbn [bind fill map]. reflexivity. }
  split; [reflexivity|].
  intros b c h w Hb Hc Hh Hw.
  rewrite get_build by (cbn [gather map nth shape in_bounds]; tauto).
  unfold get. cbn [shape data]. f_equal.
  cbn [inverse_perm length seq map index_of Nat.eqb gather nth ravel numel fold_right].
  ring.
Qed.

Lemma run_stage_feature_map_witness :
  exists m,
    run_stage 0%Z Z.add Z.mul Examples.Zid NetworkExample.embed Examples.gt_param []
      Examples.pe_table Examples.Zid 1 NetworkExample.image = Ok m
    /\ shape m = [1; 2; 2; 2]
    /\ forall b c h w, b < 1 -> c < 2 -> h < 2 -> w < 2 ->
         get 0%Z m [b; c; h; w] = get 0%Z (mkT [1; 4; 2] (Examples.iota 8)) [b; h * 2 + w; c].
Proof.
  apply (run_stage_feature_map Z 0%Z Z.add Z.mul Examples.Zid NetworkExample.embed
           Examples.gt_param Examples.pe_table Examples.Zid NetworkExample.image
           (mkT [1; 4; 2] (Examples.iota 8)) (mkT [1; 4; 2] (Examples.iota 8)) 1 2 2 2);
    solve [reflexivity | lia].
Defined.

Lemma run_stage_ok_no_blocks (A : Type) (zero : A) (add mul : A -> A -> A)
  (softmax_last : tensor A -> result (tensor A))
  embed g (blocks : list (Block A)) pe norm B x m :
  run_stage zero add mul softmax_last embed g blocks pe norm B x = Ok m ->
  blocks = [].
Proof.
  intros E. destruct blocks as [|blk rest]; [reflexivity|].
  destruct (run_stage_raises A zero add mul softmax_last embed g blk rest pe norm B x)
    as [e He].
  rewrite He in E. discriminate.
Qed.

(** X12: [forward] returns only on a network none of whose four stages
    has a block, and what it returns is a list of exactly four feature
    maps. *)
Theorem forward_returns_only_without_blocks (A : Type) (zero : A)
  (add mul : A -> A -> A) (softmax_last : tensor A -> result (tensor A))
  (self : SegFormerGTOmega A) (x : tensor A) (outs : list (tensor A)) :
  forward zero add mul softmax_last self x = Ok outs ->
  exists st,
    stages self = Some st
    /\ block1 st = [] /\ block2 st = [] /\ block3 st = [] /\ block4 st = []
    /\ length outs = 4.
Proof.
  unfold forward, forward_features. intros E.
  apply bind_inv in E as [B [_ E]].
  apply bind_inv in E as [st [Hst E]].
  apply bind_inv in E as [m1 [H1 E]].
  apply bind_inv in E as [m2 [H2 E]].
  apply bind_inv in E as [m3 [H3 E]].
  apply bind_inv in E as [m4 [H4 E]].
  injection E as <-.
  exists st. split.
  { destruct (stages self); [injection Hst as ->; reflexivity | discriminate]. }
  apply run_stage_ok_no_blocks in H1, H2, H3, H4.
  repeat split; assumption || reflexivity.
Qed.

Lemma forward_returns_only_without_blocks_witness :
  exists st,
    stages NetworkExample.network = Some st
    /\ block1 st = [] /\ block2 st = [] /\ block3 st = [] /\ block4 st = []
    /\ length NetworkOutputs.feature_maps = 4.
Proof.
  apply (forward_returns_only_without_blocks Z 0%Z Z.add Z.mul Examples.Zid
           NetworkExample.network NetworkExample.image NetworkOutputs.feature_maps).
  vm_compute. reflexivity.
Defined.

(** ** Global-token attention *)

Section ShapeLemmas.

Variable A : Type.
Variable zero : A.
Variable add mul : A -> A -> A.

Lemma permute_shape (t : tensor A) p s :
  shape t = s -> is_perm p (length s) = true ->
  exists t', permute zero t p = Ok t' /\ shape t' = gather p s.
Proof.
  intros Hs Hp. unfold permute, rank. rewrite Hs, Hp.
  eexists. split; reflexivity.
Qed.

Lemma select0_shape (t : tensor A) i d0 rest :
  shape t = d0 :: rest -> i < d0 ->
  exists t', select0 zero t i = Ok t' /\ shape t' = rest.
Proof.
  intros Hs Hi. unfold select0. rewrite Hs.
  replace (i <? d0) with true by (symmetry; apply Nat.ltb_lt; exact Hi).
  eexists. split; reflexivity.
Qed.

Lemma transpose_last_shape4 (t : tensor A) a b c d :
  shape t = [a; b; c; d] ->
  exists t', transpose_last zero t 2 1 = Ok t' /\ shape t' = [a; b; d; c].
Proof.
  intros Hs. unfold transpose_last, rank. rewrite Hs.
  cbn [length Nat.leb andb Nat.sub seq map Nat.eqb].
  destruct (permute_shape t [0; 1; 3; 2] [a; b; c; d] Hs eq_refl) as (t' & E & Hs').
  exists t'. split; assumption.
Qed.

Lemma transpose12_shape4 (t : tensor A) a b c d :
  shape t = [a; b; c; d] ->
  exists t', transpose12 zero t = Ok t' /\ shape t' = [a; c; b; d].
Proof.
  intros Hs. unfold transpose12, rank. rewrite Hs.
  cbn [length Nat.leb seq map Nat.eqb].
  destruct (permute_shape t [0; 2; 1; 3] [a; b; c; d] Hs eq_refl) as (t' & E & Hs').
  exists t'. split; assumption.
Qed.

Lemma matmul_shape4 (x y : tensor A) b h n k m :
  shape x = [b; h; n; k] -> shape y = [b; h; k; m] ->
  exists z, matmul zero add mul x y = Ok z /\ shape z = [b; h; n; m].
Proof.
  intros Hx Hy. unfold matmul, rank. rewrite Hx, Hy.
  cbn [length Nat.leb Nat.eqb andb Nat.sub firstn nth combine forallb fst snd].
  rewrite !Nat.eqb_refl. cbn [andb].
  eexists. split; reflexivity.
Qed.

Lemma tensor_add_rows (x s : tensor A) B N C :
  shape x = [B; N; C] -> shape s = [N; C] ->
  exists y, tensor_add zero add x s = Ok y /\ shape y = [B; N; C].
Proof.
  intros Hx Hs. unfold tensor_add, broadcast_shape. rewrite Hx, Hs.
  cbn [rev app broadcast_rev bind]. rewrite !Nat.eqb_refl.
  cbn [bind rev app]. eexists. split; reflexivity.
Qed.

Lemma view_shape (t : tensor A) dims :
  numel dims = numel (shape t) ->
  exists t', view t (map Dim dims) = Ok t' /\ shape t' = dims.
Proof.
  intros Hn. rewrite (view_dims A t dims Hn). eexists. split; reflexivity.
Qed.

End ShapeLemmas.

(** X13: global-token attention keeps the shape of its input.  For
    tokens of shape (B, N, C), a table of [L >= N] rows of [C] channels, a
    head count that divides [C], a [qkv] layer from [C] to [3 * C]
    channels, a [proj] layer from [C] to [C] channels and shape-preserving
    softmax and dropout layers, [ClassicAttention.forward] returns a
    tensor of shape (B, N, C). *)
Theorem ClassicAttention_keeps_shape (A : Type) (zero : A) (add mul : A -> A -> A)
  (self : ClassicAttention A) (x pe : tensor A) B N C L :
  shape x = [B; N; C] -> shape pe = [L; C] -> N <= L ->
  0 < ca_num_heads self -> C mod ca_num_heads self = 0 ->
  maps_channels (ca_qkv self) C (3 * C) ->
  keeps_shape (ca_softmax self) -> keeps_shape (ca_attn_drop self) ->
  maps_channels (ca_proj self) C C -> keeps_shape (ca_proj_drop self) ->
  exists y,
    ClassicAttention_forward zero add mul self x pe = Ok y /\ shape y = [B; N; C].
Proof.
  intros Hx Hpe Hle Hh Hdiv Hqkv Hsm Had Hpr Hpd.
  set (heads := ca_num_heads self) in *.
  assert (EC : C = C / heads * heads) by (apply divides_blocks; assumption).
  unfold ClassicAttention_forward, unpack3. rewrite Hx. cbn [bind].
  rewrite (pe_slice_centered A zero pe L C N Hpe Hle). cbn [bind].
  destruct (tensor_add_rows A zero add x
              (build [N; C]
                 (fun idx => get zero pe (at_axis 0 (fun i => i + (L / 2 - N / 2)) idx)))
              B N C Hx eq_refl) as (x1 & E1 & S1).
  rewrite E1. cbn [bind]. unfold ClassicAttention_core. fold heads.
  destruct (Hqkv x1 B N S1) as (y & E2 & S2). rewrite E2. cbn [bind].
  unfold floordiv. destruct (Nat.eqb_spec heads 0); [lia|]. cbn [bind].
  destruct (view_shape A y [B; N; 3; heads; C / heads]) as (y1 & E3 & S3).
  { rewrite S2. cbn [numel fold_right]. nia. }
  cbn [map] in E3. rewrite E3. cbn [bind].
  destruct (permute_shape A zero y1 [2; 0; 3; 1; 4] _ S3 eq_refl) as (qkv & E4 & S4).
  rewrite E4. cbn [bind]. cbn [gather map nth] in S4.
  destruct (select0_shape A zero qkv 0 _ _ S4 ltac:(lia)) as (q & E5 & S5).
  rewrite E5. cbn [bind].
  destruct (select0_shape A zero qkv 1 _ _ S4 ltac:(lia)) as (k & E6 & S6).
  rewrite E6. cbn [bind].
  destruct (select0_shape A zero qkv 2 _ _ S4 ltac:(lia)) as (v & E7 & S7).
  rewrite E7. cbn [bind].
  destruct (transpose_last_shape4 A zero k _ _ _ _ S6) as (kt & E8 & S8).
  rewrite E8. cbn [bind].
  destruct (matmul_shape4 A zero add mul (mul_scalar mul q (ca_scale self)) kt
              B heads N (C / heads) N S5 S8) as (a1 & E9 & S9).
  rewrite E9. cbn [bind].
  destruct (Hsm a1) as (a2 & E10 & S10). rewrite E10. cbn [bind].
  destruct (Had a2) as (a3 & E11 & S11). rewrite E11. cbn [bind].
  rewrite S10, S9 in S11.
  destruct (matmul_shape4 A zero add mul a3 v B heads N N (C / heads) S11 S7)
    as (o1 & E12 & S12).
  rewrite E12. cbn [bind].
  destruct (transpose12_shape4 A zero o1 _ _ _ _ S12) as (o2 & E13 & S13).
  rewrite E13. cbn [bind].
  destruct (view_shape A o2 [B; N; C]) as (o3 & E14 & S14).
  { rewrite S13. cbn [numel fold_right]. nia. }
  cbn [map] in E14. rewrite E14. cbn [bind].
  destruct (Hpr o3 B N S14) as (o4 & E15 & S15). rewrite E15. cbn [bind].
  destruct (Hpd o4) as (o5 & E16 & S16).
  exists o5. split; [exact E16|]. rewrite S16. exact S15.
Qed.

Lemma Zid_keeps_shape : keeps_shape Examples.Zid.
Proof. intros t. exists t. split; reflexivity. Qed.

Lemma linear_maps_channels cin cout :
  maps_channels (ShapeExample.linear cin cout) cin cout.
Proof.
  intros t B N Hs. unfold ShapeExample.linear. rewrite Hs, Nat.eqb_refl.
  eexists. split; reflexivity.
Qed.

Lemma ClassicAttention_keeps_shape_witness :
  exists y,
    ClassicAttention_forward 0%Z Z.add Z.mul ShapeExample.attention
      ShapeExample.tokens Examples.pe_table = Ok y
    /\ shape y = [1; 2; 2].
Proof.
  apply (ClassicAttention_keeps_shape Z 0%Z Z.add Z.mul ShapeExample.attention
           ShapeExample.tokens Examples.pe_table 1 2 2 4);
    solve [reflexivity | simpl; lia | apply Zid_keeps_shape
           | apply (linear_maps_channels 2 (3 * 2))
           | apply (linear_maps_channels 2 2)].
Defined.

(** X14: the slice of the positional table never has more rows than the
    table nor more rows than the sequence; for a sequence longer than the
    table it is therefore shorter than the sequence. *)
Theorem pe_slice_rows (A : Type) (zero : A) (pe : tensor A) L Cp N :
  shape pe = [L; Cp] ->
  exists s r,
    pe_slice zero pe N = Ok s
    /\ shape s = [r; Cp]
    /\ r <= L /\ r <= N /\ (L < N -> r < N).
Proof.
  intros Hs. unfold pe_slice, shape0, slice_rows. rewrite Hs. cbn [bind].
  eexists. eexists. split; [reflexivity|]. split; [reflexivity|].
  pose proof (Nat.div_mod_eq L 2). pose proof (Nat.div_mod_eq N 2).
  pose proof (Nat.mod_upper_bound L 2). pose proof (Nat.mod_upper_bound N 2).
  unfold slice_bound.
  destruct (Z.ltb_spec (Z.of_nat (L / 2) - Z.of_nat (N / 2)) 0);
    destruct (Z.ltb_spec (Z.of_nat (L / 2) - Z.of_nat (N / 2) + Z.of_nat N) 0);
    lia.
Qed.

Lemma pe_slice_rows_witness :
  exists s r,
    pe_slice 0%Z Examples.pe_table 7 = Ok s
    /\ shape s = [r; 2]
    /\ r <= 4 /\ r <= 7 /\ (4 < 7 -> r < 7).
Proof.
  apply (pe_slice_rows Z 0%Z Examples.pe_table 4 2 7). reflexivity.
Defined.

(** X17: [Attention.forward] checks the grid against the token count:
    for non-empty tokens of shape (B, N, C) with [N <> H * W] the [view] on
    line 177 raises [RuntimeError], before the window size is looked at. *)
Theorem Attention_forward_grid_mismatch (A : Type) (zero : A) (add mul : A -> A -> A)
  (softmax_last : tensor A -> result (tensor A))
  (wp : tensor A -> pyval -> result (tensor A))
  (self : Attention A) (x gt : tensor A) B N C H W :
  shape x = [B; N; C] -> 0 < B -> 0 < C -> N <> H * W ->
  Attention_forward_with zero add mul softmax_last wp self x H W gt = Err RuntimeError.
Proof.
  intros Hs HB HC Hne.
  unfold Attention_forward_with, Attention_pad, unpack3. rewrite Hs. cbn [bind].
  unfold view, infer_size. cbn [count_infer filter length known flat_map app].
  rewrite Hs.
  destruct (Nat.eqb_spec (numel [B; H; W; C]) (numel [B; N; C])) as [E|]; [|reflexivity].
  exfalso. cbn [numel fold_right] in E. apply Hne.
  assert (E' : B * C * (H * W) = B * C * N) by lia.
  apply Nat.mul_cancel_l in E'; lia.
Qed.

Lemma Attention_forward_grid_mismatch_witness :
  Attention_forward_with 0%Z Z.add Z.mul Examples.Zid (window_partition 0%Z)
    (Examples.attention 2 default_window_size) Examples.tokens_2x2 3 2
    Examples.gt_batched = Err RuntimeError.
Proof.
  apply (Attention_forward_grid_mismatch Z 0%Z Z.add Z.mul Examples.Zid
           (window_partition 0%Z) (Examples.attention 2 default_window_size)
           Examples.tokens_2x2 Examples.gt_batched 1 4 2 3 2);
    solve [reflexivity | lia].
Defined.

(** X18: for windows with all extents positive and fewer than 2^53 grid
    positions in all, [window_reverse] puts element (i, j, c) of window
    [(b * Hb + hb) * Wb + wb] at position
    (b, hb * ws + i, wb * ws + j, c) of the grid of shape
    (B, Hb * ws, Wb * ws, C) that it returns. *)
Theorem window_reverse_get (A : Type) (zero : A) (w : tensor A) B Hb Wb C ws
  b hb wb i j c :
  shape w = [B * Hb * Wb; ws; ws; C] ->
  0 < B -> 0 < Hb -> 0 < Wb -> 0 < C -> 0 < ws ->
  (Z.of_nat (B * (Hb * ws) * (Wb * ws)) < 2 ^ 53)%Z ->
  b < B -> hb < Hb -> wb < Wb -> i < ws -> j < ws -> c < C ->
  exists x,
    window_reverse zero w (PyInt ws) (Hb * ws) (Wb * ws) = Ok x
    /\ shape x = [B; Hb * ws; Wb * ws; C]
    /\ get zero x [b; hb * ws + i; wb * ws + j; c]
       = get zero w [(b * Hb + hb) * Wb + wb; i; j; c].
Proof.
  intros Hs HB HHb HWb HC Hws Hbound Lb Lhb Lwb Li Lj Lc.
  destruct w as [s dat]. cbn [shape] in Hs. subst s.
  eexists. split; [apply window_reverse_blocks; assumption|].
  split; [reflexivity|].
  unfold get. cbn [shape data].
  assert (Hin : in_bounds [B; Hb; ws; Wb; ws; C] [b; hb; i; wb; j; c])
    by (simpl; tauto).
  replace (ravel [B; Hb * ws; Wb * ws; C] [b; hb * ws + i; wb * ws + j; c])
    with (ravel [B; Hb; ws; Wb; ws; C] [b; hb; i; wb; j; c])
    by (cbn [ravel numel fold_right]; ring).
  rewrite nth_map_seq by (apply ravel_lt; exact Hin).
  rewrite unravel_ravel by exact Hin.
  f_equal. cbn [swap23 gather map nth ravel numel fold_right]. ring.
Qed.

Lemma window_reverse_get_witness :
  exists x,
    window_reverse 0%Z (mkT [1 * 2 * 2; 2; 2; 3] (Examples.iota 48)) (PyInt 2)
      (2 * 2) (2 * 2) = Ok x
    /\ shape x = [1; 2 * 2; 2 * 2; 3]
    /\ get 0%Z x [0; 1 * 2 + 1; 0 * 2 + 1; 2]
       = get 0%Z (mkT [1 * 2 * 2; 2; 2; 3] (Examples.iota 48))
           [(0 * 2 + 1) * 2 + 0; 1; 1; 2].
Proof.
  apply (window_reverse_get Z 0%Z (mkT [1 * 2 * 2; 2; 2; 3] (Examples.iota 48))
           1 2 2 3 2 0 1 0 1 1 2);
    solve [reflexivity | lia].
Defined.
